(** * DICOM-viewer: the decode core, embedded and verified

    A shallow embedding of the TypeScript sources

    - [src/dicom/domain/common.ts]   (transfer syntaxes, enumerations,
      windowing defaults, [PixelSpacing.fromString]),
    - [src/dicom/domain/DicomImage.ts] (the [DicomImage] record, its own
      [TransferSyntax_] and the metadata extractor [_fromDataSet]),
    - [src/dicom/domain/Image.ts]    (the sample decoder [Image_]),

    together with the small part of the JavaScript runtime these files rely
    on: exceptions, typed-array views over an [ArrayBuffer],
    [String.prototype.split] and [Number.parseFloat].

    A second copy of [common.ts] in the repository has the same functions
    with the [Result] constructors spelled [Ok] and [Err]; it differs only
    in the value of [PhotometricInterpratation.Rgb], which no function
    here reads. *)

From Stdlib Require Import ZArith NArith List String Ascii Bool Lia QArith.
From coqutil Require Import Byte Word.LittleEndianList.
Import ListNotations.

Local Open Scope Z_scope.
Local Open Scope string_scope.

(** ** Enumerations of [common.ts]

    [DicomImage.ts] declares the same enumerations again, member for member;
    [Image.ts] imports them from there.  They are embedded once.

    [TransferSyntax], [Compression], [Endianness], [PixelRepresentation] and
    [PlanarConfiguration] only ever hold values written as enum members in
    the sources, so they are inductive types.  [PhotometricInterpratation]
    and [VoiLutFunction] are string enums whose values also come from
    unvalidated casts of raw tag strings ([as PhotometricInterpratation]),
    so at run time they range over all strings: they are embedded as
    [string] with the members as constants. *)

Module TransferSyntax.
Inductive t : Type :=
| JPEG2000
| DecodeRLE
| JPEGLossless
| JPEGBaseline
| UncompressedLE
| UncompressedBE.

Definition members : list t :=
  [JPEG2000; DecodeRLE; JPEGLossless; JPEGBaseline; UncompressedLE; UncompressedBE].
End TransferSyntax.

Module Endianness.
Inductive t : Type :=
| LittleEndian
| BigEndian.
End Endianness.

Module Compression.
Inductive t : Type :=
| None
| JpegLossless
| JpegBaseline
| Jpeg2000
| Rle.

Definition eqb (a b : t) : bool :=
  match a, b with
  | None, None | JpegLossless, JpegLossless | JpegBaseline, JpegBaseline
  | Jpeg2000, Jpeg2000 | Rle, Rle => true
  | _, _ => false
  end.
End Compression.

Module PhotometricInterpratation.
Definition t : Set := string.
Definition Monochrome1 : t := "MONOCHROME1".
Definition Monochrome2 : t := "MONOCHROME2".
Definition PaletteColor : t := "PALETTE COLOR".
Definition Rgb : t := "RGB".
Definition Hsv : t := "HSV".
Definition Argb : t := "ARGB".
Definition Cmyk : t := "CMYK".
Definition YbrFull : t := "YBR_FULL".
Definition YbrFull422 : t := "YBR_FULL_422".
Definition YbrPartial422 : t := "YBR_PARTIAL_422".
Definition YbrPartial420 : t := "YBR_PARTIAL_420".
Definition YbrIct : t := "YBR_ICT".
Definition YbrRct : t := "YBR_RCT".

Definition members : list t :=
  [Monochrome1; Monochrome2; PaletteColor; Rgb; Hsv; Argb; Cmyk; YbrFull;
   YbrFull422; YbrPartial422; YbrPartial420; YbrIct; YbrRct].
End PhotometricInterpratation.

Module PixelRepresentation.
Inductive t : Type :=
| Unsigned
| Signed.
End PixelRepresentation.

Module PlanarConfiguration.
Inductive t : Type :=
| Interlaced
| Separated.
End PlanarConfiguration.

Module VoiLutFunction.
Definition t : Set := string.
Definition Linear : t := "LINEAR".
Definition LinearExact : t := "LINEAR_EXACT".
Definition Sigmoid : t := "SIGMOID".
End VoiLutFunction.

(** ** The JavaScript runtime the sources use *)

Module JS.

(** Thrown values.  [Error message] is what the sources throw themselves;
    [RangeError] and [TypeError] are raised by the runtime (a typed-array
    constructor given a buffer of the wrong size, a property read on
    [undefined]). *)
Inductive Exception : Set :=
| Error (message : string)
| RangeError
| TypeError.

(** The outcome of evaluating a function body: a returned value or a
    thrown exception. *)
Inductive Completion (A : Type) : Type :=
| Return (value : A)
| Throw (e : Exception).
Arguments Return {A} value.
Arguments Throw {A} e.

Definition bind {A B : Type} (c : Completion A) (k : A -> Completion B) : Completion B :=
  match c with
  | Return a => k a
  | Throw e => Throw e
  end.

(** [number]: NaN, the infinities, and the finite values.  A finite value
    is carried as the exact rational it denotes (kept reduced); the final
    rounding to binary64 and the sign of zero are not represented. *)
Inductive number : Set :=
| NaN
| Infinity (negative : bool)
| Finite (q : Q).

Definition of_Z (z : Z) : number := Finite (inject_Z z).

(** The character U+005C, the separator of multi-valued DICOM strings. *)
Definition backslash : ascii := ascii_of_nat 92.

(** *** [String.prototype.split] with a one-character separator

    The result is never empty: a string without the separator is its own
    single field, and the empty string splits to one empty field. *)
Fixpoint split (separator : ascii) (s : string) : list string :=
  match s with
  | EmptyString => [EmptyString]
  | String c rest =>
      if Ascii.eqb c separator then EmptyString :: split separator rest
      else match split separator rest with
           | [] => [String c EmptyString]
           | field :: fields => String c field :: fields
           end
  end.

(** *** [Number.parseFloat]

    Leading white space is skipped, then the longest prefix that is a
    decimal literal (sign, digits, fraction, exponent, or [Infinity]) is
    read and whatever follows is ignored.  Without such a prefix the
    result is NaN; no input makes [parseFloat] throw.  Only the ASCII
    white-space characters are modelled. *)
Definition is_white_space (c : ascii) : bool :=
  let n := nat_of_ascii c in
  ((9 <=? n) && (n <=? 13) || (n =? 32))%nat.

Fixpoint trim_start (s : string) : string :=
  match s with
  | String c rest => if is_white_space c then trim_start rest else s
  | EmptyString => s
  end.

Definition digit_value (c : ascii) : option Z :=
  let n := Z.of_nat (nat_of_ascii c) in
  if ((48 <=? n) && (n <=? 57))%Z then Some (n - 48) else None.

(** A maximal run of decimal digits: the value accumulated on top of
    [acc], the number of digits read on top of [count], and the rest. *)
Fixpoint digits (s : string) (acc : Z) (count : nat) : Z * nat * string :=
  match s with
  | String c rest =>
      match digit_value c with
      | Some d => digits rest (10 * acc + d) (S count)
      | None => (acc, count, s)
      end
  | EmptyString => (acc, count, s)
  end.

(** The value of an exponent part at the head of [s], 0 when there is
    none ([e] or [E], an optional sign, at least one digit). *)
Definition exponent_part (s : string) : Z :=
  match s with
  | String c rest =>
      if Ascii.eqb c "e" || Ascii.eqb c "E" then
        let '(negative, rest) :=
          match rest with
          | String "+" r => (false, r)
          | String "-" r => (true, r)
          | _ => (false, rest)
          end in
        let '(e, n, _) := digits rest 0 0 in
        if (n =? 0)%nat then 0 else if negative then - e else e
      else 0
  | EmptyString => 0
  end.

(** [m * 10 ^ e] as a reduced rational. *)
Definition scale10 (m e : Z) : Q :=
  if (0 <=? e)%Z then inject_Z (m * 10 ^ e) else Qred (m # Z.to_pos (10 ^ (- e))).

Definition unsigned_decimal (negative : bool) (s : string) : number :=
  if prefix "Infinity" s then Infinity negative
  else
    let '(int, n1, r1) := digits s 0 0 in
    let '(m, n2, r2) :=
      match r1 with
      | String "." r => digits r int 0
      | _ => (int, 0%nat, r1)
      end in
    if (n1 + n2 =? 0)%nat then NaN
    else Finite (scale10 (if negative then - m else m) (exponent_part r2 - Z.of_nat n2)).

Definition decimal_prefix (s : string) : number :=
  match trim_start s with
  | String "+" rest => unsigned_decimal false rest
  | String "-" rest => unsigned_decimal true rest
  | trimmed => unsigned_decimal false trimmed
  end.

Module Number.
Definition parseFloat (s : string) : Completion number := Return (decimal_prefix s).
End Number.

(** [try { body } catch (e) { handler }] where both blocks end in
    [return]. *)
Definition try_catch {A : Type} (body : Completion A) (handler : Exception -> A) : A :=
  match body with
  | Return a => a
  | Throw e => handler e
  end.

(** *** ArrayBuffer and typed-array views

    A typed array is a view: it keeps the buffer it was built on, a byte
    offset and an element count.  Elements are read from the buffer in the
    byte order of the platform. *)
Definition ArrayBuffer : Type := list byte.

Inductive ElementKind : Set :=
| Uint8
| Uint16
| Uint32.

Definition BYTES_PER_ELEMENT (k : ElementKind) : nat :=
  match k with
  | Uint8 => 1
  | Uint16 => 2
  | Uint32 => 4
  end.

Module TypedArray.
Record t : Type := mk {
  kind : ElementKind;
  buffer : ArrayBuffer;
  byteOffset : nat;
  length : nat
}.

(** A [Uint8Array] on a fresh buffer of its own holding [bs]: what
    [new Uint8Array(n)] is once its [n] elements have been written. *)
Definition of_bytes (bs : list byte) : t :=
  {| kind := Uint8; buffer := bs; byteOffset := 0; length := List.length bs |}.

(** [new UintNArray(buffer)]: a view of the whole buffer.  The runtime
    throws a RangeError when the buffer's byte length is not a multiple
    of the element size. *)
Definition of_buffer (k : ElementKind) (buf : ArrayBuffer) : Completion t :=
  let byteLength := List.length buf in
  if (byteLength mod BYTES_PER_ELEMENT k =? 0)%nat
  then Return {| kind := k; buffer := buf; byteOffset := 0;
                 length := (byteLength / BYTES_PER_ELEMENT k)%nat |}
  else Throw RangeError.

(** The bytes of element [i]. *)
Definition element_bytes (a : t) (i : nat) : list byte :=
  let size := BYTES_PER_ELEMENT (kind a) in
  firstn size (skipn (byteOffset a + i * size) (buffer a)).

(** The unsigned integer a run of bytes denotes in a given byte order. *)
Definition combine (order : Endianness.t) (bs : list byte) : Z :=
  match order with
  | Endianness.LittleEndian => le_combine bs
  | Endianness.BigEndian => le_combine (rev bs)
  end.

(** [a[i]] on a platform of the given byte order; [None] is
    [undefined] (index out of range). *)
Definition get (platform : Endianness.t) (a : t) (i : nat) : option Z :=
  if (i <? length a)%nat then Some (combine platform (element_bytes a i)) else None.

(** All elements, in index order. *)
Definition elements (platform : Endianness.t) (a : t) : list Z :=
  map (fun i => combine platform (element_bytes a i)) (seq 0 (length a)).
End TypedArray.

End JS.

Import JS.

(** ** [common/adt]: the [Result] type *)

Inductive Result (T E : Type) : Type :=
| Ok (value : T)
| Err (error : E).
Arguments Ok {T E} value.
Arguments Err {T E} error.

(** ** [common.ts]: transfer syntaxes *)

Module TransferSyntax_.
Import TransferSyntax.

Definition default : TransferSyntax.t := UncompressedLE.

(** One clause [.with(p1, ..., pn, handler)] of a ts-pattern [match]:
    it is selected when the matched value equals one of its patterns. *)
Definition with_ (value : string) (patterns : list string) : bool :=
  existsb (String.eqb value) patterns.

Definition fromTransferSyntaxUID (transferSyntax : string) : Result TransferSyntax.t string :=
  if with_ transferSyntax ["1.2.840.10008.1.2"; "1.2.840.10008.1.2.1"] then Ok UncompressedLE
  else if with_ transferSyntax ["1.2.840.10008.1.2.2"] then Ok UncompressedBE
  else if with_ transferSyntax ["1.2.840.10008.1.2.4.90"; "1.2.840.10008.1.2.4.91"] then Ok JPEG2000
  else if with_ transferSyntax ["1.2.840.10008.1.2.5"] then Ok DecodeRLE
  else if with_ transferSyntax ["1.2.840.10008.1.2.4.57"; "1.2.840.10008.1.2.4.70"] then Ok JPEGLossless
  else if with_ transferSyntax ["1.2.840.10008.1.2.4.50"; "1.2.840.10008.1.2.4.51"] then Ok JPEGBaseline
  else Err "Unexpected transfer syntax".

Definition toCompressionAndEndianness (transferSyntax : TransferSyntax.t)
  : Compression.t * Endianness.t :=
  match transferSyntax with
  | UncompressedBE => (Compression.None, Endianness.BigEndian)
  | UncompressedLE => (Compression.None, Endianness.LittleEndian)
  | DecodeRLE => (Compression.Rle, Endianness.LittleEndian)
  | JPEGLossless => (Compression.JpegLossless, Endianness.LittleEndian)
  | JPEG2000 => (Compression.Jpeg2000, Endianness.LittleEndian)
  | JPEGBaseline => (Compression.JpegBaseline, Endianness.LittleEndian)
  end.
End TransferSyntax_.

(** ** [common.ts]: windowing defaults *)

Module VoiLutFunction_.
Definition default : VoiLutFunction.t := VoiLutFunction.Linear.
End VoiLutFunction_.

Module VoiLutWindow.
Record t : Set := mk {
  center : number;
  width : number
}.

Definition default : t := {| center := of_Z 1024; width := of_Z 4096 |}.
End VoiLutWindow.

Module VoiLutModule.
Record t : Set := mk {
  window : VoiLutWindow.t;
  voiLutFunction : VoiLutFunction.t
}.
End VoiLutModule.

(** ** [common.ts]: pixel spacing *)

Module PixelSpacing.
Record t : Set := mk {
  row : number;
  column : number
}.

Definition fromString (str : string) : Result t string :=
  let rawNumbers := split backslash str in
  if negb (List.length rawNumbers =? 2)%nat then Err "Invalid value of Pixel Spacing"
  else
    try_catch
      (bind (Number.parseFloat (nth 0 rawNumbers "")) (fun row =>
       bind (Number.parseFloat (nth 1 rawNumbers "")) (fun column =>
       Return (Ok {| row := row; column := column |}))))
      (fun e => Err "Invalid value of Pixel Spacing").
End PixelSpacing.

(** ** The tag source ([dicom-parser]'s [DataSet])

    An external collaborator: the typed getters and the element table are
    taken as given.  A getter answers [None] for [undefined]. *)

Module Element.
Record t : Set := mk {
  vr : option string;
  length : nat;
  dataOffset : nat
}.
End Element.

Module DataSet.
Record t : Type := mk {
  string : String.string -> option String.string;
  uint16 : String.string -> option Z;
  floatString : String.string -> option number;
  elements : String.string -> option Element.t;
  byteArray : list byte
}.
End DataSet.

(** ** [DicomImage.ts]: the extracted metadata *)

Inductive PixelDataVr : Set :=
| OB
| OW.

Module VoiLutModuleHint.
(** The [voiLutModule] member of [DicomImage]: three optional hints. *)
Record t : Type := mk {
  windowCenter : option number;
  windowWidth : option number;
  voiLutFunction : option VoiLutFunction.t
}.
End VoiLutModuleHint.

Module DicomImage.
(** The numeric members are read from the tag source with [uint16]; they
    are embedded as [Z]. *)
Record t : Type := mk {
  compression : Compression.t;
  endianness : Endianness.t;
  rows : Z;
  columns : Z;
  samplePerPixel : Z;
  photometricInterpratation : PhotometricInterpratation.t;
  planarConfiguration : option PlanarConfiguration.t;
  bitsAllocated : Z;
  bitsStored : Z;
  highBit : Z;
  pixelRepresentation : PixelRepresentation.t;
  pixelData : TypedArray.t;
  pixelDataVr : PixelDataVr;
  voiLutModule : VoiLutModuleHint.t
}.

(** [DicomImage.ts] has a [TransferSyntax_] of its own, a [switch] over
    the UID; it is the one [_fromDataSet] calls. *)
Module TransferSyntax_.
Import TransferSyntax.

Definition fromTransferSyntaxUID (transferSyntaxUID : string) : TransferSyntax.t :=
  if (transferSyntaxUID =? "1.2.840.10008.1.2.4.90")%string
     || (transferSyntaxUID =? "1.2.840.10008.1.2.4.91")%string then JPEG2000
  else if (transferSyntaxUID =? "1.2.840.10008.1.2.5")%string then DecodeRLE
  else if (transferSyntaxUID =? "1.2.840.10008.1.2.4.57")%string
          || (transferSyntaxUID =? "1.2.840.10008.1.2.4.70")%string then JPEGLossless
  else if (transferSyntaxUID =? "1.2.840.10008.1.2.4.50")%string
          || (transferSyntaxUID =? "1.2.840.10008.1.2.4.51")%string then JPEGBaseline
  else if (transferSyntaxUID =? "1.2.840.10008.1.2")%string
          || (transferSyntaxUID =? "1.2.840.10008.1.2.1")%string then UncompressedLE
  else (* case "1.2.840.10008.1.2.2": default: *) UncompressedBE.

Definition toCompressionAndEndianness (transferSyntax : TransferSyntax.t)
  : Compression.t * Endianness.t :=
  match transferSyntax with
  | UncompressedBE => (Compression.None, Endianness.BigEndian)
  | UncompressedLE => (Compression.None, Endianness.LittleEndian)
  | DecodeRLE => (Compression.Rle, Endianness.LittleEndian)
  | JPEGLossless => (Compression.JpegLossless, Endianness.LittleEndian)
  | JPEG2000 => (Compression.Jpeg2000, Endianness.LittleEndian)
  | JPEGBaseline => (Compression.JpegBaseline, Endianness.LittleEndian)
  end.
End TransferSyntax_.

(** [if (x == null) return Err(message)], then continue with [x]. *)
Local Notation "'need' x ':=' e 'else_Err' message ';' k" :=
  (match e with
   | Some x => k
   | None => Return (Err message)
   end)
  (at level 10, x name, e at level 99, message at level 0, k at level 200,
   only parsing).

Definition _fromDataSet (dataSet : DataSet.t) : Completion (Result t string) :=
  let transferSyntax :=
    match DataSet.string dataSet "x00020012" with
    | Some uid => TransferSyntax_.fromTransferSyntaxUID uid
    | None => (* undefined equals no case label *) TransferSyntax.UncompressedBE
    end in
  let '(compression, endianness) := TransferSyntax_.toCompressionAndEndianness transferSyntax in
  need rows := DataSet.uint16 dataSet "x00280010" else_Err "DicomImage need to have rows";
  need columns := DataSet.uint16 dataSet "x00280011" else_Err "DicomImage need to have columns";
  need samplePerPixel := DataSet.uint16 dataSet "x00280002"
    else_Err "DicomImage need to have samplePerPixel";
  need photometricInterpratationValue := DataSet.string dataSet "x00280004"
    else_Err "DicomImage need to have photometricInterpratation";
  let photometricInterpratation : PhotometricInterpratation.t := photometricInterpratationValue in
  let planarConfigurationValue :=
    match DataSet.uint16 dataSet "x00280006" with
    | Some v => v
    | None => 0
    end in
  need planarConfiguration :=
    (if (planarConfigurationValue =? 0)%Z then Some PlanarConfiguration.Interlaced
     else if (planarConfigurationValue =? 1)%Z then Some PlanarConfiguration.Separated
     else None)
    else_Err "DicomImage have incorrect planarConfiguration";
  need bitsAllocated := DataSet.uint16 dataSet "x00280100" else_Err "DicomImage need to have bitsAllocated";
  need bitsStored := DataSet.uint16 dataSet "x00280101" else_Err "DicomImage need to have bitsStored";
  need highBit := DataSet.uint16 dataSet "x00280102" else_Err "DicomImage need to have highBit";
  need pixelRepresentationValue := DataSet.uint16 dataSet "x00280103"
    else_Err "DicomImage need to have pixelRepresentationValue";
  need pixelRepresentation :=
    (if (pixelRepresentationValue =? 0)%Z then Some PixelRepresentation.Unsigned
     else if (pixelRepresentationValue =? 1)%Z then Some PixelRepresentation.Signed
     else None)
    else_Err "Unexpected value of pixelRepresentation";
  match DataSet.elements dataSet "x7fe00010" with
  | None => (* pixelDataElement.vr on undefined *) Throw TypeError
  | Some pixelDataElement =>
      let pixelDataVrValue :=
        match Element.vr pixelDataElement with
        | Some vr => vr
        | None => "OB"
        end in
      need pixelDataVr :=
        (if (pixelDataVrValue =? "OB")%string then Some OB
         else if (pixelDataVrValue =? "OW")%string then Some OW
         else None)
        else_Err "Unexpected pixelData VR";
      let pixelData :=
        TypedArray.of_bytes
          (map (fun idx => nth (Element.dataOffset pixelDataElement + idx)
                             (DataSet.byteArray dataSet) Byte.x00)
               (seq 0 (Element.length pixelDataElement))) in
      let windowCenter := DataSet.floatString dataSet "x00281050" in
      let windowWidth := DataSet.floatString dataSet "x00281051" in
      let voiLutFunction :=
        match DataSet.string dataSet "x00281056" with
        | Some f => Some f
        | None =>
            match windowCenter with
            | Some _ => Some VoiLutFunction.Linear
            | None => None
            end
        end in
      match DataSet.elements dataSet "x00283010" with
      | Some _ => Return (Err "Not supported voiLutSequence")
      | None =>
          Return (Ok {|
            compression := compression;
            endianness := endianness;
            rows := rows;
            columns := columns;
            samplePerPixel := samplePerPixel;
            photometricInterpratation := photometricInterpratation;
            planarConfiguration := Some planarConfiguration;
            bitsAllocated := bitsAllocated;
            bitsStored := bitsStored;
            highBit := highBit;
            pixelRepresentation := pixelRepresentation;
            voiLutModule := {|
              VoiLutModuleHint.windowCenter := windowCenter;
              VoiLutModuleHint.windowWidth := windowWidth;
              VoiLutModuleHint.voiLutFunction := voiLutFunction
            |};
            pixelData := pixelData;
            pixelDataVr := pixelDataVr
          |})
      end
  end.
End DicomImage.

(** ** [Image.ts]: the sample decoder *)

Module Image.
(** [Image = ImageGrayScale | ImageRGB], discriminated by [type]. *)
Inductive t : Type :=
| grayScale (rows columns : Z) (pixelData : TypedArray.t)
| rgb (rows columns : Z) (pixelData : TypedArray.t).
End Image.

Module DataForImageGrayScale.
Record t : Type := mk {
  rows : Z;
  columns : Z;
  photometricInterpratation : PhotometricInterpratation.t;
  pixelRepresentation : PixelRepresentation.t;
  bitsAllocated : Z;
  bitsStored : Z;
  highBit : Z;
  pixelData : TypedArray.t;
  pixelDataVr : PixelDataVr
}.
End DataForImageGrayScale.

Module Image_.

Definition _fromDataForImageGrayScale (d : DataForImageGrayScale.t) : Completion Image.t :=
  let '(DataForImageGrayScale.mk rows columns photometricInterpratation
          pixelRepresentation bitsAllocated bitsStored highBit pixelData pixelDataVr) := d in
  if (match pixelDataVr with OW => true | OB => false end) && negb (bitsAllocated =? 16)%Z then
    Throw (Error "Not supported pixelData VR")
  else if negb (highBit + 1 =? bitsStored)%Z then
    Throw (Error "Not supported combination of hightBit and bitsStored")
  else if (photometricInterpratation =? PhotometricInterpratation.Monochrome1)%string then
    Throw (Error "Not supported photometricInterpratation")
  else if (match pixelRepresentation with
           | PixelRepresentation.Signed => true
           | PixelRepresentation.Unsigned => false
           end) then
    Throw (Error "Not supported pixelRepresentation")
  else
    bind
      (if (bitsAllocated =? 8)%Z then TypedArray.of_buffer Uint8 (TypedArray.buffer pixelData)
       else if (bitsAllocated =? 16)%Z then TypedArray.of_buffer Uint16 (TypedArray.buffer pixelData)
       else if (bitsAllocated =? 32)%Z then TypedArray.of_buffer Uint32 (TypedArray.buffer pixelData)
       else Throw (Error "Not supported bitsAllocated"))
      (fun imagePixelData => Return (Image.grayScale rows columns imagePixelData)).

Definition fromDicomImage (dicomImage : DicomImage.t) : Completion Image.t :=
  let otherwise := Throw (Error "Couldn't convert to Image") in
  if Compression.eqb (DicomImage.compression dicomImage) Compression.None then
    if ((DicomImage.photometricInterpratation dicomImage =? PhotometricInterpratation.Monochrome1)%string
        || (DicomImage.photometricInterpratation dicomImage =? PhotometricInterpratation.Monochrome2)%string)
       && (DicomImage.samplePerPixel dicomImage =? 1)%Z
    then
      _fromDataForImageGrayScale
        {| DataForImageGrayScale.rows := DicomImage.rows dicomImage;
           DataForImageGrayScale.columns := DicomImage.columns dicomImage;
           DataForImageGrayScale.photometricInterpratation := DicomImage.photometricInterpratation dicomImage;
           DataForImageGrayScale.pixelRepresentation := DicomImage.pixelRepresentation dicomImage;
           DataForImageGrayScale.bitsAllocated := DicomImage.bitsAllocated dicomImage;
           DataForImageGrayScale.bitsStored := DicomImage.bitsStored dicomImage;
           DataForImageGrayScale.highBit := DicomImage.highBit dicomImage;
           DataForImageGrayScale.pixelData := DicomImage.pixelData dicomImage;
           DataForImageGrayScale.pixelDataVr := DicomImage.pixelDataVr dicomImage |}
    else otherwise
  else otherwise.

(** Not called anywhere in the sources (marked TODO there). *)
Definition _rgbFrom (dicomImage : DicomImage.t) : Completion Image.t :=
  bind (TypedArray.of_buffer Uint32 (TypedArray.buffer (DicomImage.pixelData dicomImage)))
    (fun pixelData =>
       Return (Image.rgb (DicomImage.rows dicomImage) (DicomImage.columns dicomImage) pixelData)).

End Image_.

(** The condition under which [fromDicomImage] hands the image to
    [_fromDataForImageGrayScale]. *)
Definition grayscale_preconditions (d : DicomImage.t) : bool :=
  Compression.eqb (DicomImage.compression d) Compression.None
  && (((DicomImage.photometricInterpratation d =? PhotometricInterpratation.Monochrome1)%string
       || (DicomImage.photometricInterpratation d =? PhotometricInterpratation.Monochrome2)%string)
      && (DicomImage.samplePerPixel d =? 1)%Z).

Definition DataForImageGrayScale_of (d : DicomImage.t) : DataForImageGrayScale.t :=
  {| DataForImageGrayScale.rows := DicomImage.rows d;
     DataForImageGrayScale.columns := DicomImage.columns d;
     DataForImageGrayScale.photometricInterpratation := DicomImage.photometricInterpratation d;
     DataForImageGrayScale.pixelRepresentation := DicomImage.pixelRepresentation d;
     DataForImageGrayScale.bitsAllocated := DicomImage.bitsAllocated d;
     DataForImageGrayScale.bitsStored := DicomImage.bitsStored d;
     DataForImageGrayScale.highBit := DicomImage.highBit d;
     DataForImageGrayScale.pixelData := DicomImage.pixelData d;
     DataForImageGrayScale.pixelDataVr := DicomImage.pixelDataVr d |}.

(** ** Windowing resolver *)

Module WindowingResolver.
(** Modelled from the spec: the windowing resolver [resolve] (spec 4.5) is
    not among the sources; only the defaults it falls back to
    ([VoiLutWindow.default], [VoiLutFunction_.default]) and the hint
    bundle it consumes ([DicomImage.voiLutModule]) are.  Following the
    spec: without a hint the fixed default module is returned; a hint
    with both center and width has them used verbatim; an unspecified
    function defaults to Linear.  The spec does not say what window a
    hint lacking center or width yields; the default window is taken. *)
Definition resolve (hint : option VoiLutModuleHint.t) : VoiLutModule.t :=
  match hint with
  | None =>
      {| VoiLutModule.window := VoiLutWindow.default;
         VoiLutModule.voiLutFunction := VoiLutFunction_.default |}
  | Some h =>
      {| VoiLutModule.window :=
           match VoiLutModuleHint.windowCenter h, VoiLutModuleHint.windowWidth h with
           | Some center, Some width =>
               {| VoiLutWindow.center := center; VoiLutWindow.width := width |}
           | _, _ => VoiLutWindow.default
           end;
         VoiLutModule.voiLutFunction :=
           match VoiLutModuleHint.voiLutFunction h with
           | Some f => f
           | None => VoiLutFunction_.default
           end |}
  end.
End WindowingResolver.

(** ** Sample buffers

    What it means for a byte buffer to hold a sequence of unsigned samples
    of [size] bytes each in a given byte order. *)

Definition sample_bytes (order : Endianness.t) (size : nat) (v : Z) : list byte :=
  match order with
  | Endianness.LittleEndian => le_split size v
  | Endianness.BigEndian => rev (le_split size v)
  end.

Definition samples_buffer (order : Endianness.t) (size : nat) (samples : list Z) : ArrayBuffer :=
  flat_map (sample_bytes order size) samples.

(** The reading of a whole buffer as samples of [size] bytes in the byte
    order [order], whatever the platform: what a byte-order-aware decoder
    yields. *)
Definition decode_samples (order : Endianness.t) (k : ElementKind) (buf : ArrayBuffer) : list Z :=
  map (fun i => TypedArray.combine order
                  (firstn (BYTES_PER_ELEMENT k) (skipn (i * BYTES_PER_ELEMENT k) buf)))
      (seq 0 (List.length buf / BYTES_PER_ELEMENT k)).

(** ** Recognized transfer-syntax UIDs (spec 6) *)

Definition recognized_UIDs : list string :=
  ["1.2.840.10008.1.2"; "1.2.840.10008.1.2.1"; "1.2.840.10008.1.2.2";
   "1.2.840.10008.1.2.4.90"; "1.2.840.10008.1.2.4.91"; "1.2.840.10008.1.2.5";
   "1.2.840.10008.1.2.4.57"; "1.2.840.10008.1.2.4.70";
   "1.2.840.10008.1.2.4.50"; "1.2.840.10008.1.2.4.51"].

(** ** Sample inputs *)

Definition no_hint : VoiLutModuleHint.t :=
  {| VoiLutModuleHint.windowCenter := None;
     VoiLutModuleHint.windowWidth := None;
     VoiLutModuleHint.voiLutFunction := None |}.

(** A 1 x 2 Monochrome2 image of 16-bit unsigned samples; the four bytes of
    pixel data are 01 02 03 04. *)
Definition image_u16 (endianness : Endianness.t) (vr : PixelDataVr) : DicomImage.t :=
  {| DicomImage.compression := Compression.None;
     DicomImage.endianness := endianness;
     DicomImage.rows := 1;
     DicomImage.columns := 2;
     DicomImage.samplePerPixel := 1;
     DicomImage.photometricInterpratation := PhotometricInterpratation.Monochrome2;
     DicomImage.planarConfiguration := Some PlanarConfiguration.Interlaced;
     DicomImage.bitsAllocated := 16;
     DicomImage.bitsStored := 16;
     DicomImage.highBit := 15;
     DicomImage.pixelRepresentation := PixelRepresentation.Unsigned;
     DicomImage.pixelData := TypedArray.of_bytes [Byte.x01; Byte.x02; Byte.x03; Byte.x04];
     DicomImage.pixelDataVr := vr;
     DicomImage.voiLutModule := no_hint |}.

(** The same image with other values for the members the decoder looks at. *)
Definition image_with (photometricInterpratation : PhotometricInterpratation.t)
    (samplePerPixel bitsAllocated bitsStored highBit : Z) (vr : PixelDataVr) : DicomImage.t :=
  {| DicomImage.compression := Compression.None;
     DicomImage.endianness := Endianness.LittleEndian;
     DicomImage.rows := 1;
     DicomImage.columns := 2;
     DicomImage.samplePerPixel := samplePerPixel;
     DicomImage.photometricInterpratation := photometricInterpratation;
     DicomImage.planarConfiguration := Some PlanarConfiguration.Interlaced;
     DicomImage.bitsAllocated := bitsAllocated;
     DicomImage.bitsStored := bitsStored;
     DicomImage.highBit := highBit;
     DicomImage.pixelRepresentation := PixelRepresentation.Unsigned;
     DicomImage.pixelData := TypedArray.of_bytes [Byte.x01; Byte.x02; Byte.x03; Byte.x04];
     DicomImage.pixelDataVr := vr;
     DicomImage.voiLutModule := no_hint |}.

(** A tag source with every required tag in order, whose photometric
    interpretation tag holds [photometric] and whose window tags hold
    [center] and [width]; no VOI LUT function tag, no VOI LUT sequence. *)
Definition dataset_with (photometric : string) (center width : option number) : DataSet.t :=
  {| DataSet.string := fun tag =>
       if (tag =? "x00020012")%string then Some "1.2.840.10008.1.2.1"
       else if (tag =? "x00280004")%string then Some photometric
       else None;
     DataSet.uint16 := fun tag =>
       if (tag =? "x00280010")%string then Some 1
       else if (tag =? "x00280011")%string then Some 2
       else if (tag =? "x00280002")%string then Some 1
       else if (tag =? "x00280100")%string then Some 16
       else if (tag =? "x00280101")%string then Some 16
       else if (tag =? "x00280102")%string then Some 15
       else if (tag =? "x00280103")%string then Some 0
       else None;
     DataSet.floatString := fun tag =>
       if (tag =? "x00281050")%string then center
       else if (tag =? "x00281051")%string then width
       else None;
     DataSet.elements := fun tag =>
       if (tag =? "x7fe00010")%string
       then Some {| Element.vr := Some "OW"; Element.length := 4; Element.dataOffset := 2 |}
       else None;
     DataSet.byteArray := [Byte.xaa; Byte.xbb; Byte.x01; Byte.x02; Byte.x03; Byte.x04] |}.

(** ** Further vocabulary for the properties *)

(** The element kind [_fromDataForImageGrayScale] picks for a number of bits
    allocated; [None] where it throws "Not supported bitsAllocated". *)
Definition kind_of_bitsAllocated (bitsAllocated : Z) : option ElementKind :=
  if (bitsAllocated =? 8)%Z then Some Uint8
  else if (bitsAllocated =? 16)%Z then Some Uint16
  else if (bitsAllocated =? 32)%Z then Some Uint32
  else None.

(** The view [new UintNArray(buffer)] makes of a buffer whose length fits. *)
Definition whole_buffer_view (k : ElementKind) (buf : ArrayBuffer) : TypedArray.t :=
  {| TypedArray.kind := k;
     TypedArray.buffer := buf;
     TypedArray.byteOffset := 0;
     TypedArray.length := (List.length buf / BYTES_PER_ELEMENT k)%nat |}.

(** Everything [Image_.fromDicomImage] can throw. *)
Definition decoder_exceptions : list Exception :=
  [Error "Couldn't convert to Image";
   Error "Not supported pixelData VR";
   Error "Not supported combination of hightBit and bitsStored";
   Error "Not supported photometricInterpratation";
   Error "Not supported pixelRepresentation";
   Error "Not supported bitsAllocated";
   RangeError].

(** The conditions under which the decoder returns, and what it returns. *)
Definition decodes_to (d : DicomImage.t) (i : Image.t) : Prop :=
  DicomImage.compression d = Compression.None
  /\ DicomImage.photometricInterpratation d = PhotometricInterpratation.Monochrome2
  /\ DicomImage.samplePerPixel d = 1
  /\ (DicomImage.pixelDataVr d = OW -> DicomImage.bitsAllocated d = 16)
  /\ DicomImage.highBit d + 1 = DicomImage.bitsStored d
  /\ DicomImage.pixelRepresentation d = PixelRepresentation.Unsigned
  /\ exists k : ElementKind,
       kind_of_bitsAllocated (DicomImage.bitsAllocated d) = Some k
       /\ (List.length (TypedArray.buffer (DicomImage.pixelData d)) mod BYTES_PER_ELEMENT k
           = 0)%nat
       /\ i = Image.grayScale (DicomImage.rows d) (DicomImage.columns d)
                (whole_buffer_view k (TypedArray.buffer (DicomImage.pixelData d))).

(** A 16-bit value with its two bytes exchanged. *)
Definition swap16 (v : Z) : Z := (v mod 256) * 256 + v / 256.


(** The transfer syntax [_fromDataSet] works with: the resolver of
    [DicomImage.ts] applied to the UID tag, an absent tag taking the
    [default] branch of its [switch]. *)
Definition transferSyntax_of (dataSet : DataSet.t) : TransferSyntax.t :=
  match DataSet.string dataSet "x00020012" with
  | Some uid => DicomImage.TransferSyntax_.fromTransferSyntaxUID uid
  | None => TransferSyntax.UncompressedBE
  end.

(** The bytes [_fromDataSet] copies for a pixel-data element: [length]
    bytes of the byte array from [dataOffset] on, a read past its end giving
    a zero byte. *)
Definition copied_bytes (dataSet : DataSet.t) (e : Element.t) : list byte :=
  map (fun idx => nth (Element.dataOffset e + idx) (DataSet.byteArray dataSet) Byte.x00)
      (seq 0 (Element.length e)).

(** What a successful extraction has read: every required tag is present
    with a value in range, there is a pixel-data element and no VOI LUT
    sequence, and each member of the image is the value of its tag. *)
Definition extracts_to (dataSet : DataSet.t) (image : DicomImage.t) : Prop :=
  (DicomImage.compression image, DicomImage.endianness image)
    = DicomImage.TransferSyntax_.toCompressionAndEndianness (transferSyntax_of dataSet)
  /\ DataSet.uint16 dataSet "x00280010" = Some (DicomImage.rows image)
  /\ DataSet.uint16 dataSet "x00280011" = Some (DicomImage.columns image)
  /\ DataSet.uint16 dataSet "x00280002" = Some (DicomImage.samplePerPixel image)
  /\ DataSet.string dataSet "x00280004" = Some (DicomImage.photometricInterpratation image)
  /\ ((DicomImage.planarConfiguration image = Some PlanarConfiguration.Interlaced
       /\ (DataSet.uint16 dataSet "x00280006" = None
           \/ DataSet.uint16 dataSet "x00280006" = Some 0))
      \/ (DicomImage.planarConfiguration image = Some PlanarConfiguration.Separated
          /\ DataSet.uint16 dataSet "x00280006" = Some 1))
  /\ DataSet.uint16 dataSet "x00280100" = Some (DicomImage.bitsAllocated image)
  /\ DataSet.uint16 dataSet "x00280101" = Some (DicomImage.bitsStored image)
  /\ DataSet.uint16 dataSet "x00280102" = Some (DicomImage.highBit image)
  /\ ((DicomImage.pixelRepresentation image = PixelRepresentation.Unsigned
       /\ DataSet.uint16 dataSet "x00280103" = Some 0)
      \/ (DicomImage.pixelRepresentation image = PixelRepresentation.Signed
          /\ DataSet.uint16 dataSet "x00280103" = Some 1))
  /\ (exists pixelDataElement : Element.t,
        DataSet.elements dataSet "x7fe00010" = Some pixelDataElement
        /\ ((DicomImage.pixelDataVr image = OB
             /\ (Element.vr pixelDataElement = None
                 \/ Element.vr pixelDataElement = Some "OB"))
            \/ (DicomImage.pixelDataVr image = OW
                /\ Element.vr pixelDataElement = Some "OW"))
        /\ DicomImage.pixelData image
           = TypedArray.of_bytes (copied_bytes dataSet pixelDataElement))
  /\ DicomImage.voiLutModule image
     = {| VoiLutModuleHint.windowCenter := DataSet.floatString dataSet "x00281050";
          VoiLutModuleHint.windowWidth := DataSet.floatString dataSet "x00281051";
          VoiLutModuleHint.voiLutFunction :=
            match DataSet.string dataSet "x00281056" with
            | Some f => Some f
            | None =>
                match DataSet.floatString dataSet "x00281050" with
                | Some _ => Some VoiLutFunction.Linear
                | None => None
                end
            end |}
  /\ DataSet.elements dataSet "x00283010" = None.

(** Every error message [_fromDataSet] can return. *)
Definition extractor_errors : list string :=
  ["DicomImage need to have rows";
   "DicomImage need to have columns";
   "DicomImage need to have samplePerPixel";
   "DicomImage need to have photometricInterpratation";
   "DicomImage have incorrect planarConfiguration";
   "DicomImage need to have bitsAllocated";
   "DicomImage need to have bitsStored";
   "DicomImage need to have highBit";
   "DicomImage need to have pixelRepresentationValue";
   "Unexpected value of pixelRepresentation";
   "Unexpected pixelData VR";
   "Not supported voiLutSequence"].



(** How often a character occurs in a string. *)
Fixpoint occurrences (c : ascii) (s : string) : nat :=
  match s with
  | EmptyString => 0
  | String c' rest => ((if Ascii.eqb c' c then 1 else 0) + occurrences c rest)%nat
  end.


(** A 1 x 2 image with every member the decoder reads given, and a pixel
    data view with its own buffer. *)
Definition image_of (compression : Compression.t)
    (photometricInterpratation : PhotometricInterpratation.t)
    (samplePerPixel bitsAllocated bitsStored highBit : Z)
    (pixelRepresentation : PixelRepresentation.t) (vr : PixelDataVr)
    (bytes : list byte) : DicomImage.t :=
  {| DicomImage.compression := compression;
     DicomImage.endianness := Endianness.LittleEndian;
     DicomImage.rows := 1;
     DicomImage.columns := 2;
     DicomImage.samplePerPixel := samplePerPixel;
     DicomImage.photometricInterpratation := photometricInterpratation;
     DicomImage.planarConfiguration := Some PlanarConfiguration.Interlaced;
     DicomImage.bitsAllocated := bitsAllocated;
     DicomImage.bitsStored := bitsStored;
     DicomImage.highBit := highBit;
     DicomImage.pixelRepresentation := pixelRepresentation;
     DicomImage.pixelData := TypedArray.of_bytes bytes;
     DicomImage.pixelDataVr := vr;
     DicomImage.voiLutModule := no_hint |}.

(** A tag source given by association lists, first binding first. *)
Definition lookup {V : Type} (bindings : list (string * V)) (tag : string) : option V :=
  match find (fun binding => (fst binding =? tag)%string) bindings with
  | Some binding => Some (snd binding)
  | None => None
  end.

Definition dataset_of (strings : list (string * string)) (uint16s : list (string * Z))
    (floatStrings : list (string * number)) (elements : list (string * Element.t))
    (byteArray : list byte) : DataSet.t :=
  {| DataSet.string := lookup strings;
     DataSet.uint16 := lookup uint16s;
     DataSet.floatString := lookup floatStrings;
     DataSet.elements := lookup elements;
     DataSet.byteArray := byteArray |}.

(** The numeric tags of a 1 x 2 image with the given bit layout and pixel
    representation code. *)
Definition uint16_tags (bitsAllocated bitsStored highBit pixelRepresentation : Z)
  : list (string * Z) :=
  [("x00280010", 1); ("x00280011", 2); ("x00280002", 1);
   ("x00280100", bitsAllocated); ("x00280101", bitsStored); ("x00280102", highBit);
   ("x00280103", pixelRepresentation)].

(** A pixel-data element of four bytes at offset 2 of [sample_byteArray]. *)
Definition sample_element (vr : option string) : Element.t :=
  {| Element.vr := vr; Element.length := 4; Element.dataOffset := 2 |}.

Definition sample_byteArray : list byte :=
  [Byte.xaa; Byte.xbb; Byte.x01; Byte.x02; Byte.x03; Byte.x04].

(** A complete 16-bit Monochrome2 tag source with the given transfer-syntax
    UID. *)
Definition dataset_uid (uid : string) : DataSet.t :=
  dataset_of [("x00020012", uid); ("x00280004", "MONOCHROME2")]
    (uint16_tags 16 16 15 0) [] [("x7fe00010", sample_element (Some "OW"))]
    sample_byteArray.

(** * Properties *)

(** ** Typed-array views over sample buffers *)

Section Chunks.
Context {A B : Type} (f : A -> list B) (n : nat).
Hypothesis f_length : forall x, List.length (f x) = n.

Lemma flat_map_chunks_length (l : list A) :
  List.length (flat_map f l) = (List.length l * n)%nat.
Proof using f_length.
  induction l as [|x l IH]; simpl; [reflexivity|].
  rewrite List.length_app, f_length, IH. reflexivity.
Qed.

Lemma skipn_flat_map_chunks (i : nat) : forall l : list A,
  skipn (i * n) (flat_map f l) = flat_map f (skipn i l).
Proof using f_length.
  induction i as [|i IH]; intros l; [reflexivity|].
  destruct l as [|x l]; simpl.
  - apply skipn_nil.
  - rewrite skipn_app, f_length.
    replace (n + i * n - n)%nat with (i * n)%nat by lia.
    rewrite skipn_all2 by (rewrite f_length; lia).
    simpl. apply IH.
Qed.

Lemma firstn_flat_map_chunk (x : A) (l : list A) :
  firstn n (flat_map f (x :: l)) = f x.
Proof using f_length.
  simpl. rewrite firstn_app, f_length, Nat.sub_diag, firstn_O, app_nil_r.
  apply firstn_all2. rewrite f_length. lia.
Qed.

Lemma chunk_at (g : list B -> A) (l : list A) :
  (forall x, In x l -> g (f x) = x) ->
  map (fun i => g (firstn n (skipn (i * n) (flat_map f l)))) (seq 0 (List.length l)) = l.
Proof using f_length.
  intros Hg.
  induction l as [|x l IH]; [reflexivity|].
  cbn [List.length seq map].
  f_equal.
  - change (0 * n)%nat with 0%nat. rewrite skipn_O, firstn_flat_map_chunk.
    apply Hg. left. reflexivity.
  - rewrite <- seq_shift, map_map.
    rewrite <- IH at 2 by (intros y Hy; apply Hg; right; exact Hy).
    apply map_ext. intros i.
    rewrite !skipn_flat_map_chunks. reflexivity.
Qed.
End Chunks.

Lemma BYTES_PER_ELEMENT_pos (k : ElementKind) : (0 < BYTES_PER_ELEMENT k)%nat.
Proof. destruct k; simpl; lia. Qed.

Lemma sample_bytes_length (order : Endianness.t) (size : nat) (v : Z) :
  List.length (sample_bytes order size v) = size.
Proof.
  destruct order; simpl; [|rewrite length_rev]; apply length_le_split.
Qed.

Lemma combine_sample_bytes (order : Endianness.t) (size : nat) (v : Z) :
  0 <= v < 2 ^ (Z.of_nat size * 8) ->
  TypedArray.combine order (sample_bytes order size v) = v.
Proof.
  intros Hv.
  destruct order; simpl; rewrite ?rev_involutive, le_combine_split;
    apply Z.mod_small; exact Hv.
Qed.

(** A view built on a buffer of [size]-byte samples has one element per
    sample. *)
Lemma of_buffer_samples (order : Endianness.t) (k : ElementKind) (samples : list Z) :
  TypedArray.of_buffer k (samples_buffer order (BYTES_PER_ELEMENT k) samples)
  = Return {| TypedArray.kind := k;
              TypedArray.buffer := samples_buffer order (BYTES_PER_ELEMENT k) samples;
              TypedArray.byteOffset := 0;
              TypedArray.length := List.length samples |}.
Proof.
  unfold TypedArray.of_buffer, samples_buffer.
  rewrite (flat_map_chunks_length _ _ (sample_bytes_length order (BYTES_PER_ELEMENT k))).
  pose proof (BYTES_PER_ELEMENT_pos k) as Hpos.
  rewrite Nat.Div0.mod_mul, Nat.div_mul by lia.
  reflexivity.
Qed.

(** Read back in the byte order they were written in, the elements are the
    samples. *)
Lemma elements_samples (order : Endianness.t) (k : ElementKind) (samples : list Z) :
  Forall (fun v => 0 <= v < 2 ^ (Z.of_nat (BYTES_PER_ELEMENT k) * 8)) samples ->
  TypedArray.elements order
    {| TypedArray.kind := k;
       TypedArray.buffer := samples_buffer order (BYTES_PER_ELEMENT k) samples;
       TypedArray.byteOffset := 0;
       TypedArray.length := List.length samples |}
  = samples.
Proof.
  intros Hrange.
  unfold TypedArray.elements, TypedArray.element_bytes, samples_buffer.
  cbn [TypedArray.kind TypedArray.buffer TypedArray.byteOffset TypedArray.length Nat.add].
  apply (chunk_at _ _ (sample_bytes_length order (BYTES_PER_ELEMENT k))
           (TypedArray.combine order)).
  intros v Hin. apply combine_sample_bytes.
  rewrite Forall_forall in Hrange. apply Hrange, Hin.
Qed.

(** ** The grayscale path of [Image_.fromDicomImage] *)

Lemma Compression_eqb_eq (a b : Compression.t) : Compression.eqb a b = true <-> a = b.
Proof. destruct a, b; simpl; split; congruence. Qed.

Lemma grayscale_preconditions_spec (d : DicomImage.t) :
  grayscale_preconditions d = true
  <-> DicomImage.compression d = Compression.None
      /\ (DicomImage.photometricInterpratation d = PhotometricInterpratation.Monochrome1
          \/ DicomImage.photometricInterpratation d = PhotometricInterpratation.Monochrome2)
      /\ DicomImage.samplePerPixel d = 1.
Proof.
  unfold grayscale_preconditions.
  rewrite !andb_true_iff, orb_true_iff, Compression_eqb_eq, !String.eqb_eq, Z.eqb_eq.
  reflexivity.
Qed.

Lemma fromDicomImage_grayscale (d : DicomImage.t) :
  grayscale_preconditions d = true ->
  Image_.fromDicomImage d = Image_._fromDataForImageGrayScale (DataForImageGrayScale_of d).
Proof.
  unfold grayscale_preconditions, Image_.fromDicomImage.
  intros H. apply andb_prop in H. destruct H as [Hc Hp].
  rewrite Hc, Hp. reflexivity.
Qed.

Lemma fromDicomImage_not_grayscale (d : DicomImage.t) :
  grayscale_preconditions d = false ->
  Image_.fromDicomImage d = Throw (Error "Couldn't convert to Image").
Proof.
  unfold grayscale_preconditions, Image_.fromDicomImage.
  destruct (Compression.eqb _ _); simpl; [|reflexivity].
  intros H. rewrite H. reflexivity.
Qed.

(** The decoder first runs its checks in a fixed order; each lemma below
    names the outcome of one of them. *)
Section GrayScaleChecks.
Variable d : DataForImageGrayScale.t.

(** The VR check passes when the VR is not OW or 16 bits are allocated. *)
Hypothesis vr_coherent :
  DataForImageGrayScale.pixelDataVr d = OW -> DataForImageGrayScale.bitsAllocated d = 16.

Lemma vr_check_passes :
  match DataForImageGrayScale.pixelDataVr d with OW => true | OB => false end
  && negb (DataForImageGrayScale.bitsAllocated d =? 16)%Z = false.
Proof using vr_coherent.
  destruct (DataForImageGrayScale.pixelDataVr d); [reflexivity|].
  rewrite (vr_coherent eq_refl). reflexivity.
Qed.

Lemma grayScale_bits_check :
  DataForImageGrayScale.highBit d + 1 <> DataForImageGrayScale.bitsStored d ->
  Image_._fromDataForImageGrayScale d
  = Throw (Error "Not supported combination of hightBit and bitsStored").
Proof using vr_coherent.
  intros Hne. pose proof vr_check_passes as Hvr.
  apply Z.eqb_neq in Hne.
  destruct d; cbn in *. rewrite Hvr, Hne. reflexivity.
Qed.

Lemma grayScale_photometric_check :
  DataForImageGrayScale.highBit d + 1 = DataForImageGrayScale.bitsStored d ->
  DataForImageGrayScale.photometricInterpratation d = PhotometricInterpratation.Monochrome1 ->
  Image_._fromDataForImageGrayScale d
  = Throw (Error "Not supported photometricInterpratation").
Proof using vr_coherent.
  intros Heq Hpi. pose proof vr_check_passes as Hvr.
  apply Z.eqb_eq in Heq.
  destruct d; cbn in *. rewrite Hvr, Heq, Hpi. reflexivity.
Qed.

(** Past the four checks only the choice of view is left. *)
Lemma grayScale_reinterprets :
  DataForImageGrayScale.highBit d + 1 = DataForImageGrayScale.bitsStored d ->
  DataForImageGrayScale.photometricInterpratation d <> PhotometricInterpratation.Monochrome1 ->
  DataForImageGrayScale.pixelRepresentation d = PixelRepresentation.Unsigned ->
  Image_._fromDataForImageGrayScale d
  = bind
      (let buffer := TypedArray.buffer (DataForImageGrayScale.pixelData d) in
       if (DataForImageGrayScale.bitsAllocated d =? 8)%Z then TypedArray.of_buffer Uint8 buffer
       else if (DataForImageGrayScale.bitsAllocated d =? 16)%Z then TypedArray.of_buffer Uint16 buffer
       else if (DataForImageGrayScale.bitsAllocated d =? 32)%Z then TypedArray.of_buffer Uint32 buffer
       else Throw (Error "Not supported bitsAllocated"))
      (fun imagePixelData =>
         Return (Image.grayScale (DataForImageGrayScale.rows d)
                   (DataForImageGrayScale.columns d) imagePixelData)).
Proof using vr_coherent.
  intros Heq Hpi Hrep. pose proof vr_check_passes as Hvr.
  apply Z.eqb_eq in Heq. apply String.eqb_neq in Hpi.
  destruct d; cbn in *. rewrite Hvr, Heq, Hpi, Hrep. reflexivity.
Qed.
End GrayScaleChecks.

(** The VR check comes first and stops an OW image not allocated 16 bits. *)
Lemma grayScale_vr_check (d : DataForImageGrayScale.t) :
  DataForImageGrayScale.pixelDataVr d = OW ->
  DataForImageGrayScale.bitsAllocated d <> 16 ->
  Image_._fromDataForImageGrayScale d = Throw (Error "Not supported pixelData VR").
Proof.
  intros Hvr Hba. apply Z.eqb_neq in Hba.
  destruct d; cbn in *. rewrite Hvr, Hba. reflexivity.
Qed.

(** Whatever else holds, a Monochrome1 image gets no raster. *)
Lemma grayScale_monochrome1_throws (d : DataForImageGrayScale.t) :
  DataForImageGrayScale.photometricInterpratation d = PhotometricInterpratation.Monochrome1 ->
  exists e, Image_._fromDataForImageGrayScale d = Throw e.
Proof.
  destruct d; simpl. intros ->.
  destruct (_ && _); [eexists; reflexivity|].
  destruct (negb _); eexists; reflexivity.
Qed.

(** Nor does one whose high bit and stored bits disagree. *)
Lemma grayScale_bits_mismatch_throws (d : DataForImageGrayScale.t) :
  DataForImageGrayScale.highBit d + 1 <> DataForImageGrayScale.bitsStored d ->
  exists e, Image_._fromDataForImageGrayScale d = Throw e.
Proof.
  destruct d; simpl. intros Hne. apply Z.eqb_neq in Hne. rewrite Hne.
  destruct (_ && _); eexists; reflexivity.
Qed.

(** C1. A Monochrome2, unsigned, 16/16/15 image without compression whose
    pixel-data buffer holds little-endian 16-bit samples decodes to a
    grayscale raster over a Uint16 view whose elements, read on a
    little-endian platform, are exactly those samples: nothing is scaled or
    shifted.  Rows and columns are passed through; either pixel-data VR
    will do. *)
Theorem fromDicomImage_monochrome2_u16_roundtrip (d : DicomImage.t) (samples : list Z) :
  DicomImage.compression d = Compression.None ->
  DicomImage.photometricInterpratation d = PhotometricInterpratation.Monochrome2 ->
  DicomImage.samplePerPixel d = 1 ->
  DicomImage.pixelRepresentation d = PixelRepresentation.Unsigned ->
  DicomImage.bitsAllocated d = 16 ->
  DicomImage.bitsStored d = 16 ->
  DicomImage.highBit d = 15 ->
  Forall (fun v => 0 <= v < 2 ^ 16) samples ->
  TypedArray.buffer (DicomImage.pixelData d)
    = samples_buffer Endianness.LittleEndian 2 samples ->
  exists pixels : TypedArray.t,
    Image_.fromDicomImage d
      = Return (Image.grayScale (DicomImage.rows d) (DicomImage.columns d) pixels)
    /\ TypedArray.kind pixels = Uint16
    /\ TypedArray.length pixels = List.length samples
    /\ TypedArray.elements Endianness.LittleEndian pixels = samples.
Proof.
  intros Hc Hpi Hspp Hrep Hba Hbs Hhb Hrange Hbuf.
  rewrite fromDicomImage_grayscale
    by (unfold grayscale_preconditions; rewrite Hc, Hpi, Hspp; reflexivity).
  rewrite grayScale_reinterprets; cbn.
  - rewrite Hba, Hbuf. cbn [Z.eqb Pos.eqb].
    change 2%nat with (BYTES_PER_ELEMENT Uint16).
    rewrite of_buffer_samples. cbn [bind].
    eexists. split; [reflexivity|].
    split; [reflexivity|]. split; [reflexivity|].
    apply elements_samples. exact Hrange.
  - intros _. exact Hba.
  - rewrite Hhb, Hbs. reflexivity.
  - rewrite Hpi. discriminate.
  - exact Hrep.
Qed.

Lemma fromDicomImage_monochrome2_u16_roundtrip_witness :
  exists pixels : TypedArray.t,
    Image_.fromDicomImage (image_u16 Endianness.LittleEndian OW)
      = Return (Image.grayScale 1 2 pixels)
    /\ TypedArray.kind pixels = Uint16
    /\ TypedArray.length pixels = 2%nat
    /\ TypedArray.elements Endianness.LittleEndian pixels = [513; 1027].
Proof.
  apply (fromDicomImage_monochrome2_u16_roundtrip
           (image_u16 Endianness.LittleEndian OW) [513; 1027]);
    try reflexivity.
  repeat constructor; lia.
Defined.

(** A returned raster means the image went down the grayscale path. *)
Lemma fromDicomImage_Return_grayscale (d : DicomImage.t) (i : Image.t) :
  Image_.fromDicomImage d = Return i -> grayscale_preconditions d = true.
Proof.
  intros H. destruct (grayscale_preconditions d) eqn:E; [reflexivity|].
  rewrite (fromDicomImage_not_grayscale d E) in H. discriminate H.
Qed.

(** [fromDicomImage] never looks at the byte order the transfer syntax
    declared. *)
Lemma fromDicomImage_ignores_endianness (d : DicomImage.t) (e : Endianness.t) :
  Image_.fromDicomImage
    {| DicomImage.compression := DicomImage.compression d;
       DicomImage.endianness := e;
       DicomImage.rows := DicomImage.rows d;
       DicomImage.columns := DicomImage.columns d;
       DicomImage.samplePerPixel := DicomImage.samplePerPixel d;
       DicomImage.photometricInterpratation := DicomImage.photometricInterpratation d;
       DicomImage.planarConfiguration := DicomImage.planarConfiguration d;
       DicomImage.bitsAllocated := DicomImage.bitsAllocated d;
       DicomImage.bitsStored := DicomImage.bitsStored d;
       DicomImage.highBit := DicomImage.highBit d;
       DicomImage.pixelRepresentation := DicomImage.pixelRepresentation d;
       DicomImage.pixelData := DicomImage.pixelData d;
       DicomImage.pixelDataVr := DicomImage.pixelDataVr d;
       DicomImage.voiLutModule := DicomImage.voiLutModule d |}
  = Image_.fromDicomImage d.
Proof. destruct d; reflexivity. Qed.

(** C3. The decoder does not honour a declared big-endian byte order.  For
    the 16-bit image whose transfer syntax declares big endian and whose
    pixel data is 01 02 03 04, [fromDicomImage] returns a Uint16 view of the
    untouched buffer: on a little-endian platform its elements are 513 and
    1027, the little-endian readings, while the big-endian reading of the
    same bytes is 258 and 772. *)
Theorem fromDicomImage_big_endian_not_swapped :
  DicomImage.endianness (image_u16 Endianness.BigEndian OW) = Endianness.BigEndian
  /\ exists pixels : TypedArray.t,
       Image_.fromDicomImage (image_u16 Endianness.BigEndian OW)
         = Return (Image.grayScale 1 2 pixels)
       /\ TypedArray.buffer pixels = [Byte.x01; Byte.x02; Byte.x03; Byte.x04]
       /\ TypedArray.elements Endianness.LittleEndian pixels = [513; 1027]
       /\ decode_samples Endianness.BigEndian Uint16
            (TypedArray.buffer (DicomImage.pixelData (image_u16 Endianness.BigEndian OW)))
          = [258; 772].
Proof.
  split; [reflexivity|].
  eexists. split; [reflexivity|].
  repeat split; reflexivity.
Qed.

(** ** Images off the grayscale path *)

(** C5, as stated, fails: an RGB image with three samples per pixel does
    not meet the grayscale preconditions, yet [fromDicomImage] does not
    give what the RGB decode [_rgbFrom] gives for it; it throws, while
    [_rgbFrom] would return a raster. *)
Lemma fromDicomImage_rgb_not_attempted :
  grayscale_preconditions (image_with PhotometricInterpratation.Rgb 3 8 8 7 OB) = false
  /\ Image_.fromDicomImage (image_with PhotometricInterpratation.Rgb 3 8 8 7 OB)
     = Throw (Error "Couldn't convert to Image")
  /\ Image_._rgbFrom (image_with PhotometricInterpratation.Rgb 3 8 8 7 OB)
     = Return (Image.rgb 1 2
         {| TypedArray.kind := Uint32;
            TypedArray.buffer := [Byte.x01; Byte.x02; Byte.x03; Byte.x04];
            TypedArray.byteOffset := 0;
            TypedArray.length := 1 |})
  /\ Image_.fromDicomImage (image_with PhotometricInterpratation.Rgb 3 8 8 7 OB)
     <> Image_._rgbFrom (image_with PhotometricInterpratation.Rgb 3 8 8 7 OB).
Proof.
  repeat split; try reflexivity.
  cbv. discriminate.
Qed.

(** C5, amended.  An image that does not meet the grayscale preconditions
    makes [fromDicomImage] throw "Couldn't convert to Image": no RGB decode
    is attempted and no raster returned.  The helper [_rgbFrom], which
    [fromDicomImage] does not call, views the raw pixel-data buffer as
    32-bit packed pixels when its byte length is a multiple of 4, and its
    outcome is fixed by rows, columns and that buffer alone: planar
    configuration, bits allocated, high bit and pixel representation (like
    every other member) are not consulted. *)
Theorem fromDicomImage_off_grayscale_throws (d : DicomImage.t) :
  grayscale_preconditions d = false ->
  Image_.fromDicomImage d = Throw (Error "Couldn't convert to Image")
  /\ ((List.length (TypedArray.buffer (DicomImage.pixelData d)) mod 4 = 0)%nat ->
      Image_._rgbFrom d
      = Return (Image.rgb (DicomImage.rows d) (DicomImage.columns d)
          {| TypedArray.kind := Uint32;
             TypedArray.buffer := TypedArray.buffer (DicomImage.pixelData d);
             TypedArray.byteOffset := 0;
             TypedArray.length :=
               (List.length (TypedArray.buffer (DicomImage.pixelData d)) / 4)%nat |}))
  /\ (forall d' : DicomImage.t,
        DicomImage.rows d' = DicomImage.rows d ->
        DicomImage.columns d' = DicomImage.columns d ->
        TypedArray.buffer (DicomImage.pixelData d')
          = TypedArray.buffer (DicomImage.pixelData d) ->
        Image_._rgbFrom d' = Image_._rgbFrom d).
Proof.
  intros Hoff. split; [apply fromDicomImage_not_grayscale, Hoff|]. split.
  - intros Hlen. unfold Image_._rgbFrom, TypedArray.of_buffer.
    cbn [BYTES_PER_ELEMENT]. rewrite Hlen. reflexivity.
  - intros d' Hr Hc Hb. unfold Image_._rgbFrom. rewrite Hr, Hc, Hb. reflexivity.
Qed.

Lemma fromDicomImage_off_grayscale_throws_witness :
  Image_.fromDicomImage (image_with PhotometricInterpratation.Rgb 3 8 8 7 OB)
  = Throw (Error "Couldn't convert to Image")
  /\ Image_._rgbFrom (image_with PhotometricInterpratation.Rgb 3 8 8 7 OB)
     = Return (Image.rgb 1 2
         {| TypedArray.kind := Uint32;
            TypedArray.buffer := [Byte.x01; Byte.x02; Byte.x03; Byte.x04];
            TypedArray.byteOffset := 0;
            TypedArray.length := 1 |})
  /\ Image_._rgbFrom (image_with PhotometricInterpratation.Rgb 1 16 12 3 OW)
     = Image_._rgbFrom (image_with PhotometricInterpratation.Rgb 3 8 8 7 OB).
Proof.
  destruct (fromDicomImage_off_grayscale_throws
              (image_with PhotometricInterpratation.Rgb 3 8 8 7 OB) eq_refl)
    as [Hthrow [Hview Hsame]].
  split; [exact Hthrow|]. split.
  - exact (Hview eq_refl).
  - exact (Hsame (image_with PhotometricInterpratation.Rgb 1 16 12 3 OW)
             eq_refl eq_refl eq_refl).
Defined.

(** ** Rejections on the grayscale path *)

(** C6. Take a Monochrome1 image that meets the other preconditions of the
    grayscale decode: no compression, one sample per pixel, a VR coherent
    with the bits allocated, and high bit + 1 = bits stored.  The decoder
    throws "Not supported photometricInterpratation".  Any Monochrome1
    image at all gets no raster, and every image that does get one is
    Monochrome2. *)
Theorem fromDicomImage_monochrome1_rejected (d : DicomImage.t) :
  (DicomImage.photometricInterpratation d = PhotometricInterpratation.Monochrome1 ->
   DicomImage.compression d = Compression.None ->
   DicomImage.samplePerPixel d = 1 ->
   (DicomImage.pixelDataVr d = OW -> DicomImage.bitsAllocated d = 16) ->
   DicomImage.highBit d + 1 = DicomImage.bitsStored d ->
   Image_.fromDicomImage d = Throw (Error "Not supported photometricInterpratation"))
  /\ (DicomImage.photometricInterpratation d = PhotometricInterpratation.Monochrome1 ->
      forall i : Image.t, Image_.fromDicomImage d <> Return i)
  /\ (forall i : Image.t,
        Image_.fromDicomImage d = Return i ->
        DicomImage.photometricInterpratation d = PhotometricInterpratation.Monochrome2).
Proof.
  split; [|split].
  - intros Hpi Hc Hspp Hvr Hbits.
    rewrite fromDicomImage_grayscale
      by (unfold grayscale_preconditions; rewrite Hc, Hpi, Hspp; reflexivity).
    apply grayScale_photometric_check; cbn.
    + exact Hvr.
    + exact Hbits.
    + exact Hpi.
  - intros Hpi i Hret.
    pose proof (fromDicomImage_Return_grayscale d i Hret) as Hpre.
    rewrite (fromDicomImage_grayscale d Hpre) in Hret.
    destruct (grayScale_monochrome1_throws (DataForImageGrayScale_of d) Hpi) as [e He].
    rewrite He in Hret. discriminate Hret.
  - intros i Hret.
    pose proof (fromDicomImage_Return_grayscale d i Hret) as Hpre.
    rewrite (fromDicomImage_grayscale d Hpre) in Hret.
    unfold grayscale_preconditions in Hpre.
    apply andb_prop in Hpre. destruct Hpre as [_ Hpre].
    apply andb_prop in Hpre. destruct Hpre as [Hpi _].
    apply orb_prop in Hpi. destruct Hpi as [Hm1 | Hm2].
    + apply String.eqb_eq in Hm1.
      destruct (grayScale_monochrome1_throws (DataForImageGrayScale_of d) Hm1) as [e He].
      rewrite He in Hret. discriminate Hret.
    + apply String.eqb_eq in Hm2. exact Hm2.
Qed.

Lemma fromDicomImage_monochrome1_rejected_witness :
  Image_.fromDicomImage (image_with PhotometricInterpratation.Monochrome1 1 16 16 15 OW)
  = Throw (Error "Not supported photometricInterpratation").
Proof.
  apply (proj1 (fromDicomImage_monochrome1_rejected
                  (image_with PhotometricInterpratation.Monochrome1 1 16 16 15 OW)));
    reflexivity.
Defined.

(** C7, as stated, fails: an image on the grayscale path with high bit 7
    and 16 bits stored, but VR OW with 8 bits allocated, is stopped by the
    earlier VR check and raises that check's error, not the bit-layout
    one. *)
Lemma fromDicomImage_bit_layout_masked_by_vr :
  grayscale_preconditions (image_with PhotometricInterpratation.Monochrome2 1 8 16 7 OW) = true
  /\ DicomImage.highBit (image_with PhotometricInterpratation.Monochrome2 1 8 16 7 OW) + 1
     <> DicomImage.bitsStored (image_with PhotometricInterpratation.Monochrome2 1 8 16 7 OW)
  /\ Image_.fromDicomImage (image_with PhotometricInterpratation.Monochrome2 1 8 16 7 OW)
     = Throw (Error "Not supported pixelData VR")
  /\ Image_.fromDicomImage (image_with PhotometricInterpratation.Monochrome2 1 8 16 7 OW)
     <> Throw (Error "Not supported combination of hightBit and bitsStored").
Proof.
  repeat split; try reflexivity; cbv; discriminate.
Qed.

(** C7, amended.  On the grayscale path, an image with
    high bit + 1 <> bits stored never gets a raster: the decoder throws.
    When the image passes the VR check that comes first (VR is not OW, or
    16 bits are allocated), the error thrown is "Not supported combination
    of hightBit and bitsStored". *)
Theorem fromDicomImage_bit_layout_rejected (d : DicomImage.t) :
  grayscale_preconditions d = true ->
  DicomImage.highBit d + 1 <> DicomImage.bitsStored d ->
  (forall i : Image.t, Image_.fromDicomImage d <> Return i)
  /\ ((DicomImage.pixelDataVr d = OW -> DicomImage.bitsAllocated d = 16) ->
      Image_.fromDicomImage d
      = Throw (Error "Not supported combination of hightBit and bitsStored")).
Proof.
  intros Hpre Hbits. rewrite (fromDicomImage_grayscale d Hpre). split.
  - intros i Hret.
    destruct (grayScale_bits_mismatch_throws (DataForImageGrayScale_of d) Hbits) as [e He].
    rewrite He in Hret. discriminate Hret.
  - intros Hvr. apply grayScale_bits_check; cbn.
    + exact Hvr.
    + exact Hbits.
Qed.

Lemma fromDicomImage_bit_layout_rejected_witness :
  Image_.fromDicomImage (image_with PhotometricInterpratation.Monochrome2 1 16 16 7 OW)
  = Throw (Error "Not supported combination of hightBit and bitsStored").
Proof.
  apply (proj2 (fromDicomImage_bit_layout_rejected
                  (image_with PhotometricInterpratation.Monochrome2 1 16 16 7 OW)
                  eq_refl ltac:(cbv; discriminate))).
  reflexivity.
Defined.

(** ** Transfer syntaxes *)

Lemma with__false (value : string) (patterns : list string) :
  (forall p, In p patterns -> value <> p) ->
  TransferSyntax_.with_ value patterns = false.
Proof.
  intros Hne. unfold TransferSyntax_.with_.
  induction patterns as [|p ps IH]; [reflexivity|].
  simpl. rewrite IH by (intros q Hq; apply Hne; right; exact Hq).
  rewrite orb_false_r. apply String.eqb_neq, Hne. left. reflexivity.
Qed.

(** The resolver of [common.ts] answers every string outside the table
    with its error. *)
Lemma fromTransferSyntaxUID_unrecognized (uid : string) :
  ~ In uid recognized_UIDs ->
  TransferSyntax_.fromTransferSyntaxUID uid = Err "Unexpected transfer syntax".
Proof.
  intros Hout. unfold TransferSyntax_.fromTransferSyntaxUID.
  rewrite !with__false; [reflexivity| | | | | |];
    intros p Hp Heq; apply Hout; subst p; revert Hp;
    unfold recognized_UIDs; simpl; intuition (subst; auto 12).
Qed.

(** The resolver of [DicomImage.ts], the one the extractor calls, answers
    every string outside the table with [UncompressedBE]. *)
Lemma DicomImage_fromTransferSyntaxUID_unrecognized (uid : string) :
  ~ In uid recognized_UIDs ->
  DicomImage.TransferSyntax_.fromTransferSyntaxUID uid = TransferSyntax.UncompressedBE.
Proof.
  intros Hout. unfold DicomImage.TransferSyntax_.fromTransferSyntaxUID.
  repeat match goal with
         | |- context [(uid =? ?p)%string] =>
             destruct (String.eqb_spec uid p) as [Heq | _];
             [exfalso; apply Hout; rewrite Heq; unfold recognized_UIDs; simpl; auto 12|]
         end.
  reflexivity.
Qed.

(** C2. The transfer-syntax UID "1.2.840.10008.1.2.4.100" (MPEG2) is not in
    the table.  The resolver of [common.ts] answers it with the error
    "Unexpected transfer syntax", but the resolver of [DicomImage.ts]
    returns the member [UncompressedBE] for it, which then classifies as
    uncompressed big-endian data. *)
Theorem DicomImage_fromTransferSyntaxUID_silent_default :
  ~ In "1.2.840.10008.1.2.4.100" recognized_UIDs
  /\ TransferSyntax_.fromTransferSyntaxUID "1.2.840.10008.1.2.4.100"
     = Err "Unexpected transfer syntax"
  /\ DicomImage.TransferSyntax_.fromTransferSyntaxUID "1.2.840.10008.1.2.4.100"
     = TransferSyntax.UncompressedBE
  /\ DicomImage.TransferSyntax_.toCompressionAndEndianness
       (DicomImage.TransferSyntax_.fromTransferSyntaxUID "1.2.840.10008.1.2.4.100")
     = (Compression.None, Endianness.BigEndian).
Proof.
  repeat split; try reflexivity.
  unfold recognized_UIDs. simpl. intuition discriminate.
Qed.

(** C4. Both resolvers send each of the ten recognized UIDs to its
    documented member; both classifiers give each of the six members (they
    are all the members there are) its documented pair of compression and
    byte order; and no two members share a pair. *)
Theorem transfer_syntax_tables :
  map TransferSyntax_.fromTransferSyntaxUID recognized_UIDs
  = [Ok TransferSyntax.UncompressedLE; Ok TransferSyntax.UncompressedLE;
     Ok TransferSyntax.UncompressedBE;
     Ok TransferSyntax.JPEG2000; Ok TransferSyntax.JPEG2000;
     Ok TransferSyntax.DecodeRLE;
     Ok TransferSyntax.JPEGLossless; Ok TransferSyntax.JPEGLossless;
     Ok TransferSyntax.JPEGBaseline; Ok TransferSyntax.JPEGBaseline]
  /\ map DicomImage.TransferSyntax_.fromTransferSyntaxUID recognized_UIDs
     = [TransferSyntax.UncompressedLE; TransferSyntax.UncompressedLE;
        TransferSyntax.UncompressedBE;
        TransferSyntax.JPEG2000; TransferSyntax.JPEG2000;
        TransferSyntax.DecodeRLE;
        TransferSyntax.JPEGLossless; TransferSyntax.JPEGLossless;
        TransferSyntax.JPEGBaseline; TransferSyntax.JPEGBaseline]
  /\ (forall ts : TransferSyntax.t, In ts TransferSyntax.members)
  /\ map (fun ts => (ts, TransferSyntax_.toCompressionAndEndianness ts)) TransferSyntax.members
     = [(TransferSyntax.JPEG2000, (Compression.Jpeg2000, Endianness.LittleEndian));
        (TransferSyntax.DecodeRLE, (Compression.Rle, Endianness.LittleEndian));
        (TransferSyntax.JPEGLossless, (Compression.JpegLossless, Endianness.LittleEndian));
        (TransferSyntax.JPEGBaseline, (Compression.JpegBaseline, Endianness.LittleEndian));
        (TransferSyntax.UncompressedLE, (Compression.None, Endianness.LittleEndian));
        (TransferSyntax.UncompressedBE, (Compression.None, Endianness.BigEndian))]
  /\ (forall ts : TransferSyntax.t,
        DicomImage.TransferSyntax_.toCompressionAndEndianness ts
        = TransferSyntax_.toCompressionAndEndianness ts)
  /\ NoDup (map TransferSyntax_.toCompressionAndEndianness TransferSyntax.members).
Proof.
  split; [reflexivity|]. split; [reflexivity|].
  split; [intros []; simpl; auto 8|].
  split; [reflexivity|].
  split; [intros []; reflexivity|].
  simpl. repeat constructor; simpl; intuition discriminate.
Qed.

(** ** Pixel spacing *)

(** With two fields the parse always succeeds: the [catch] branch of
    [fromString] cannot be reached. *)
Lemma fromString_two_fields (str : string) :
  List.length (split backslash str) = 2%nat ->
  PixelSpacing.fromString str
  = Ok {| PixelSpacing.row := decimal_prefix (nth 0 (split backslash str) "");
          PixelSpacing.column := decimal_prefix (nth 1 (split backslash str) "") |}.
Proof.
  intros Hlen. unfold PixelSpacing.fromString. rewrite Hlen. reflexivity.
Qed.

Lemma fromString_other_fields (str : string) :
  List.length (split backslash str) <> 2%nat ->
  PixelSpacing.fromString str = Err "Invalid value of Pixel Spacing".
Proof.
  intros Hlen. unfold PixelSpacing.fromString.
  apply Nat.eqb_neq in Hlen. rewrite Hlen. reflexivity.
Qed.

(** C8. [fromString] maps "0.5\0.5" to row 0.5 and column 0.5 and answers
    the one-field "0.5" with its error; but for "abc\0.5" it returns a
    success value whose row is NaN, not an error. *)
Theorem PixelSpacing_fromString_cases :
  PixelSpacing.fromString "0.5\0.5"
  = Ok {| PixelSpacing.row := Finite (1 # 2); PixelSpacing.column := Finite (1 # 2) |}
  /\ PixelSpacing.fromString "0.5" = Err "Invalid value of Pixel Spacing"
  /\ PixelSpacing.fromString "abc\0.5"
     = Ok {| PixelSpacing.row := NaN; PixelSpacing.column := Finite (1 # 2) |}.
Proof. repeat split; reflexivity. Qed.

(** ** Windowing *)

(** What the extractor leaves in the hint bundle. *)
Lemma fromDataSet_voiLutModule (dataSet : DataSet.t) (image : DicomImage.t) :
  DicomImage._fromDataSet dataSet = Return (Ok image) ->
  DicomImage.voiLutModule image
  = {| VoiLutModuleHint.windowCenter := DataSet.floatString dataSet "x00281050";
       VoiLutModuleHint.windowWidth := DataSet.floatString dataSet "x00281051";
       VoiLutModuleHint.voiLutFunction :=
         match DataSet.string dataSet "x00281056" with
         | Some f => Some f
         | None =>
             match DataSet.floatString dataSet "x00281050" with
             | Some _ => Some VoiLutFunction.Linear
             | None => None
             end
         end |}.
Proof.
  unfold DicomImage._fromDataSet.
  repeat match goal with
         | |- context [match ?x with _ => _ end] =>
             lazymatch x with
             | DataSet.string dataSet "x00281056" => fail
             | DataSet.floatString dataSet "x00281050" => fail
             | _ => destruct x eqn:?
             end
         end;
    intros H; try discriminate H;
    injection H as <-; reflexivity.
Qed.

(** C9. The resolver is a total function.  Without a hint it returns the
    default module, center 1024, width 4096, function Linear.  A hint's
    center and width, when both are there, become the window as they are,
    whatever their values.  A hint without a function resolves to Linear;
    and the extractor itself fills in Linear when the function tag is
    absent and a window center is present. *)
Theorem windowing_defaults :
  WindowingResolver.resolve None
  = {| VoiLutModule.window := {| VoiLutWindow.center := of_Z 1024;
                                 VoiLutWindow.width := of_Z 4096 |};
       VoiLutModule.voiLutFunction := VoiLutFunction.Linear |}
  /\ (forall (h : VoiLutModuleHint.t) (center width : number),
        VoiLutModuleHint.windowCenter h = Some center ->
        VoiLutModuleHint.windowWidth h = Some width ->
        VoiLutModule.window (WindowingResolver.resolve (Some h))
        = {| VoiLutWindow.center := center; VoiLutWindow.width := width |})
  /\ (forall h : VoiLutModuleHint.t,
        VoiLutModuleHint.voiLutFunction h = None ->
        VoiLutModule.voiLutFunction (WindowingResolver.resolve (Some h))
        = VoiLutFunction.Linear)
  /\ (forall (dataSet : DataSet.t) (image : DicomImage.t) (center : number),
        DicomImage._fromDataSet dataSet = Return (Ok image) ->
        DataSet.string dataSet "x00281056" = None ->
        DataSet.floatString dataSet "x00281050" = Some center ->
        VoiLutModuleHint.voiLutFunction (DicomImage.voiLutModule image)
        = Some VoiLutFunction.Linear).
Proof.
  split; [reflexivity|]. split; [|split].
  - intros h center width Hc Hw. unfold WindowingResolver.resolve.
    cbn [VoiLutModule.window]. rewrite Hc, Hw. reflexivity.
  - intros h Hf. unfold WindowingResolver.resolve.
    cbn [VoiLutModule.voiLutFunction]. rewrite Hf. reflexivity.
  - intros dataSet image center Hok Hf Hc.
    rewrite (fromDataSet_voiLutModule dataSet image Hok).
    cbn [VoiLutModuleHint.voiLutFunction]. rewrite Hf, Hc. reflexivity.
Qed.

Lemma windowing_defaults_witness :
  WindowingResolver.resolve
    (Some {| VoiLutModuleHint.windowCenter := Some (of_Z 200);
             VoiLutModuleHint.windowWidth := Some (of_Z 400);
             VoiLutModuleHint.voiLutFunction := None |})
  = {| VoiLutModule.window := {| VoiLutWindow.center := of_Z 200;
                                 VoiLutWindow.width := of_Z 400 |};
       VoiLutModule.voiLutFunction := VoiLutFunction.Linear |}
  /\ exists image : DicomImage.t,
       DicomImage._fromDataSet
         (dataset_with "MONOCHROME2" (Some (of_Z 200)) (Some (of_Z 400)))
       = Return (Ok image)
       /\ VoiLutModuleHint.voiLutFunction (DicomImage.voiLutModule image)
          = Some VoiLutFunction.Linear.
Proof.
  destruct windowing_defaults as [_ [Hwindow [Hfunction Hextract]]].
  split.
  - pose proof (Hwindow
      {| VoiLutModuleHint.windowCenter := Some (of_Z 200);
         VoiLutModuleHint.windowWidth := Some (of_Z 400);
         VoiLutModuleHint.voiLutFunction := None |}
      (of_Z 200) (of_Z 400) eq_refl eq_refl) as Hw.
    pose proof (Hfunction
      {| VoiLutModuleHint.windowCenter := Some (of_Z 200);
         VoiLutModuleHint.windowWidth := Some (of_Z 400);
         VoiLutModuleHint.voiLutFunction := None |}
      eq_refl) as Hf.
    destruct (WindowingResolver.resolve _) as [window function].
    cbn in Hw, Hf. rewrite Hw, Hf. reflexivity.
  - eexists. split; [reflexivity|].
    apply (Hextract (dataset_with "MONOCHROME2" (Some (of_Z 200)) (Some (of_Z 400)))
             _ (of_Z 200));
      reflexivity.
Defined.

(** ** The metadata extractor *)

(** C10. The extractor does not check the photometric-interpretation
    string against the enumeration.  Whatever string the tag holds, when
    the other required tags are in order (rows, columns, samples per pixel
    and the three bit counts present; planar configuration absent, 0 or 1;
    pixel representation 0 or 1; a pixel-data element whose VR is absent,
    OB or OW; no VOI LUT sequence), extraction succeeds and the image
    carries that very string as its photometric interpretation. *)
Theorem fromDataSet_photometric_unvalidated
    (dataSet : DataSet.t) (raw : string)
    (rows columns samplePerPixel bitsAllocated bitsStored highBit pixelRepresentation : Z)
    (pixelDataElement : Element.t) :
  DataSet.string dataSet "x00280004" = Some raw ->
  DataSet.uint16 dataSet "x00280010" = Some rows ->
  DataSet.uint16 dataSet "x00280011" = Some columns ->
  DataSet.uint16 dataSet "x00280002" = Some samplePerPixel ->
  (DataSet.uint16 dataSet "x00280006" = None
   \/ DataSet.uint16 dataSet "x00280006" = Some 0
   \/ DataSet.uint16 dataSet "x00280006" = Some 1) ->
  DataSet.uint16 dataSet "x00280100" = Some bitsAllocated ->
  DataSet.uint16 dataSet "x00280101" = Some bitsStored ->
  DataSet.uint16 dataSet "x00280102" = Some highBit ->
  DataSet.uint16 dataSet "x00280103" = Some pixelRepresentation ->
  (pixelRepresentation = 0 \/ pixelRepresentation = 1) ->
  DataSet.elements dataSet "x7fe00010" = Some pixelDataElement ->
  (Element.vr pixelDataElement = None
   \/ Element.vr pixelDataElement = Some "OB"
   \/ Element.vr pixelDataElement = Some "OW") ->
  DataSet.elements dataSet "x00283010" = None ->
  exists image : DicomImage.t,
    DicomImage._fromDataSet dataSet = Return (Ok image)
    /\ DicomImage.photometricInterpratation image = raw.
Proof.
  intros Hpi Hrows Hcols Hspp Hplanar Hba Hbs Hhb Hpr Hprv Hel Hvr Hseq.
  unfold DicomImage._fromDataSet.
  rewrite Hpi, Hrows, Hcols, Hspp, Hba, Hbs, Hhb, Hpr, Hel, Hseq.
  destruct (DicomImage.TransferSyntax_.toCompressionAndEndianness _) as [compression endianness].
  destruct Hplanar as [-> | [-> | ->]];
    destruct Hprv as [-> | ->];
    destruct Hvr as [-> | [-> | ->]];
    cbn [Z.eqb Pos.eqb String.eqb Ascii.eqb Bool.eqb];
    eexists; (split; [reflexivity|]); reflexivity.
Qed.

Lemma fromDataSet_photometric_unvalidated_witness :
  exists image : DicomImage.t,
    DicomImage._fromDataSet (dataset_with "NOT-A-COLOUR-MODEL" None None) = Return (Ok image)
    /\ DicomImage.photometricInterpratation image = "NOT-A-COLOUR-MODEL".
Proof.
  apply (fromDataSet_photometric_unvalidated
           (dataset_with "NOT-A-COLOUR-MODEL" None None) "NOT-A-COLOUR-MODEL"
           1 2 1 16 16 15 0
           {| Element.vr := Some "OW"; Element.length := 4; Element.dataOffset := 2 |});
    try reflexivity.
  - left. reflexivity.
  - left. reflexivity.
  - right. right. reflexivity.
Defined.

(** * Further properties of the decode core *)

(** ** The sample decoder, outcome by outcome *)

(** [_fromDataForImageGrayScale] in terms of the members of its argument. *)
Lemma grayScale_unfold (d : DataForImageGrayScale.t) :
  Image_._fromDataForImageGrayScale d
  = if match DataForImageGrayScale.pixelDataVr d with OW => true | OB => false end
       && negb (DataForImageGrayScale.bitsAllocated d =? 16)%Z
    then Throw (Error "Not supported pixelData VR")
    else if negb (DataForImageGrayScale.highBit d + 1 =? DataForImageGrayScale.bitsStored d)%Z
    then Throw (Error "Not supported combination of hightBit and bitsStored")
    else if (DataForImageGrayScale.photometricInterpratation d
             =? PhotometricInterpratation.Monochrome1)%string
    then Throw (Error "Not supported photometricInterpratation")
    else if match DataForImageGrayScale.pixelRepresentation d with
            | PixelRepresentation.Signed => true
            | PixelRepresentation.Unsigned => false
            end
    then Throw (Error "Not supported pixelRepresentation")
    else
      match kind_of_bitsAllocated (DataForImageGrayScale.bitsAllocated d) with
      | Some k =>
          bind (TypedArray.of_buffer k (TypedArray.buffer (DataForImageGrayScale.pixelData d)))
            (fun imagePixelData =>
               Return (Image.grayScale (DataForImageGrayScale.rows d)
                         (DataForImageGrayScale.columns d) imagePixelData))
      | None => Throw (Error "Not supported bitsAllocated")
      end.
Proof.
  destruct d as [rows columns pi rep ba bs hb data vr]. unfold kind_of_bitsAllocated.
  cbn [Image_._fromDataForImageGrayScale DataForImageGrayScale.pixelDataVr
       DataForImageGrayScale.bitsAllocated DataForImageGrayScale.highBit
       DataForImageGrayScale.bitsStored DataForImageGrayScale.photometricInterpratation
       DataForImageGrayScale.pixelRepresentation DataForImageGrayScale.pixelData
       DataForImageGrayScale.rows DataForImageGrayScale.columns].
  destruct (_ && _); [reflexivity|].
  destruct (negb _); [reflexivity|].
  destruct (pi =? _)%string; [reflexivity|].
  destruct rep; [|reflexivity].
  destruct (ba =? 8)%Z; [reflexivity|].
  destruct (ba =? 16)%Z; [reflexivity|].
  destruct (ba =? 32)%Z; reflexivity.
Qed.

Lemma of_buffer_fits (k : ElementKind) (buf : ArrayBuffer) :
  (List.length buf mod BYTES_PER_ELEMENT k = 0)%nat ->
  TypedArray.of_buffer k buf = Return (whole_buffer_view k buf).
Proof.
  intros Hfit. unfold TypedArray.of_buffer. rewrite Hfit. reflexivity.
Qed.

Lemma of_buffer_misfit (k : ElementKind) (buf : ArrayBuffer) :
  (List.length buf mod BYTES_PER_ELEMENT k <> 0)%nat ->
  TypedArray.of_buffer k buf = Throw RangeError.
Proof.
  intros Hfit. unfold TypedArray.of_buffer.
  apply Nat.eqb_neq in Hfit. rewrite Hfit. reflexivity.
Qed.

Lemma vr_check_fails_inv (vr : PixelDataVr) (bitsAllocated : Z) :
  match vr with OW => true | OB => false end && negb (bitsAllocated =? 16)%Z = false ->
  vr = OW -> bitsAllocated = 16.
Proof.
  intros H ->. simpl in H. apply negb_false_iff, Z.eqb_eq in H. exact H.
Qed.

Lemma fromDicomImage_Return_inv (d : DicomImage.t) (i : Image.t) :
  Image_.fromDicomImage d = Return i -> decodes_to d i.
Proof.
  intros Hret.
  pose proof (fromDicomImage_Return_grayscale d i Hret) as Hpre.
  rewrite (fromDicomImage_grayscale d Hpre), grayScale_unfold in Hret.
  apply grayscale_preconditions_spec in Hpre. destruct Hpre as [Hc [Hpi Hspp]].
  cbn [DataForImageGrayScale_of DataForImageGrayScale.pixelDataVr
       DataForImageGrayScale.bitsAllocated DataForImageGrayScale.highBit
       DataForImageGrayScale.bitsStored DataForImageGrayScale.photometricInterpratation
       DataForImageGrayScale.pixelRepresentation DataForImageGrayScale.pixelData
       DataForImageGrayScale.rows DataForImageGrayScale.columns] in Hret.
  destruct (_ && _) eqn:Hvr in Hret; [discriminate Hret|].
  destruct (Z.eqb_spec (DicomImage.highBit d + 1) (DicomImage.bitsStored d)) as [Hbits|];
    [|discriminate Hret].
  destruct (String.eqb_spec (DicomImage.photometricInterpratation d)
              PhotometricInterpratation.Monochrome1) as [|Hm1]; [discriminate Hret|].
  destruct (DicomImage.pixelRepresentation d) eqn:Hrep; [|discriminate Hret].
  destruct (kind_of_bitsAllocated (DicomImage.bitsAllocated d)) as [k|] eqn:Hk;
    [|discriminate Hret].
  unfold TypedArray.of_buffer in Hret.
  destruct (Nat.eqb_spec
              (List.length (TypedArray.buffer (DicomImage.pixelData d)) mod BYTES_PER_ELEMENT k)
              0) as [Hfit|]; [|discriminate Hret].
  injection Hret as <-.
  unfold decodes_to. repeat split; try assumption.
  - destruct Hpi as [Hpi | Hpi]; [contradiction | exact Hpi].
  - apply vr_check_fails_inv, Hvr.
  - exists k. repeat split; assumption.
Qed.

Lemma fromDicomImage_Return_intro (d : DicomImage.t) (i : Image.t) :
  decodes_to d i -> Image_.fromDicomImage d = Return i.
Proof.
  intros (Hc & Hpi & Hspp & Hvr & Hbits & Hrep & k & Hk & Hfit & ->).
  rewrite fromDicomImage_grayscale
    by (unfold grayscale_preconditions; rewrite Hc, Hpi, Hspp; reflexivity).
  rewrite grayScale_unfold.
  cbn [DataForImageGrayScale_of DataForImageGrayScale.pixelDataVr
       DataForImageGrayScale.bitsAllocated DataForImageGrayScale.highBit
       DataForImageGrayScale.bitsStored DataForImageGrayScale.photometricInterpratation
       DataForImageGrayScale.pixelRepresentation DataForImageGrayScale.pixelData
       DataForImageGrayScale.rows DataForImageGrayScale.columns].
  replace (_ && _) with false.
  2:{ symmetry. destruct (DicomImage.pixelDataVr d); [reflexivity|].
      rewrite (Hvr eq_refl). reflexivity. }
  apply Z.eqb_eq in Hbits. rewrite Hbits, Hpi, Hrep, Hk, (of_buffer_fits k _ Hfit).
  reflexivity.
Qed.

(** X1. [fromDicomImage] returns a raster exactly when the image is
    uncompressed Monochrome2 with one sample per pixel, its VR is coherent
    with the bits allocated, high bit + 1 = bits stored, the samples are
    unsigned, 8, 16 or 32 bits are allocated and the buffer length is a
    multiple of the sample size; the raster is then the grayscale one with
    the image's rows and columns over a view of the whole pixel-data
    buffer. *)
Theorem fromDicomImage_Return_iff (d : DicomImage.t) (i : Image.t) :
  Image_.fromDicomImage d = Return i <-> decodes_to d i.
Proof.
  split; [apply fromDicomImage_Return_inv | apply fromDicomImage_Return_intro].
Qed.

Lemma fromDicomImage_Return_iff_witness :
  Image_.fromDicomImage (image_u16 Endianness.LittleEndian OW)
  = Return (Image.grayScale 1 2
              (whole_buffer_view Uint16 [Byte.x01; Byte.x02; Byte.x03; Byte.x04])).
Proof.
  apply (proj2 (fromDicomImage_Return_iff (image_u16 Endianness.LittleEndian OW) _)).
  unfold decodes_to. repeat split; try reflexivity.
  exists Uint16. repeat split; reflexivity.
Defined.

(** X2. Whatever the image, [fromDicomImage] throws nothing but its own six
    errors and the RangeError of the typed-array constructor. *)
Theorem fromDicomImage_Throw_cases (d : DicomImage.t) (e : Exception) :
  Image_.fromDicomImage d = Throw e -> In e decoder_exceptions.
Proof.
  destruct (grayscale_preconditions d) eqn:Hpre.
  - rewrite (fromDicomImage_grayscale d Hpre), grayScale_unfold.
    unfold decoder_exceptions.
    destruct (_ && _); [intros [= <-]; simpl; auto 8|].
    destruct (negb _); [intros [= <-]; simpl; auto 8|].
    destruct (_ =? _)%string; [intros [= <-]; simpl; auto 8|].
    destruct (DataForImageGrayScale.pixelRepresentation _); [|intros [= <-]; simpl; auto 8].
    destruct (kind_of_bitsAllocated _) as [k|]; [|intros [= <-]; simpl; auto 8].
    unfold TypedArray.of_buffer.
    destruct (_ =? 0)%nat; [discriminate|intros [= <-]; simpl; auto 8].
  - rewrite (fromDicomImage_not_grayscale d Hpre). intros [= <-]. left. reflexivity.
Qed.

Lemma fromDicomImage_Throw_cases_witness :
  In (Error "Not supported pixelData VR") decoder_exceptions.
Proof.
  apply (fromDicomImage_Throw_cases
           (image_with PhotometricInterpratation.Monochrome2 1 8 8 7 OW)).
  reflexivity.
Defined.

(** X3. A signed image that passes the checks before it (no compression,
    Monochrome2, one sample per pixel, coherent VR, high bit + 1 = bits
    stored) is rejected with "Not supported pixelRepresentation", and no
    signed image at all gets a raster. *)
Theorem fromDicomImage_signed_rejected (d : DicomImage.t) :
  DicomImage.pixelRepresentation d = PixelRepresentation.Signed ->
  (forall i : Image.t, Image_.fromDicomImage d <> Return i)
  /\ (DicomImage.compression d = Compression.None ->
      DicomImage.photometricInterpratation d = PhotometricInterpratation.Monochrome2 ->
      DicomImage.samplePerPixel d = 1 ->
      (DicomImage.pixelDataVr d = OW -> DicomImage.bitsAllocated d = 16) ->
      DicomImage.highBit d + 1 = DicomImage.bitsStored d ->
      Image_.fromDicomImage d = Throw (Error "Not supported pixelRepresentation")).
Proof.
  intros Hrep. split.
  - intros i Hret. apply fromDicomImage_Return_inv in Hret.
    destruct Hret as (_ & _ & _ & _ & _ & Hun & _). congruence.
  - intros Hc Hpi Hspp Hvr Hbits.
    rewrite fromDicomImage_grayscale
      by (unfold grayscale_preconditions; rewrite Hc, Hpi, Hspp; reflexivity).
    rewrite grayScale_unfold. cbn.
    replace (_ && _) with false.
    2:{ symmetry. destruct (DicomImage.pixelDataVr d); [reflexivity|].
        rewrite (Hvr eq_refl). reflexivity. }
    apply Z.eqb_eq in Hbits. rewrite Hbits, Hpi, Hrep. reflexivity.
Qed.

Lemma fromDicomImage_signed_rejected_witness :
  Image_.fromDicomImage
    (image_of Compression.None PhotometricInterpratation.Monochrome2 1 16 16 15
       PixelRepresentation.Signed OW [Byte.x01; Byte.x02])
  = Throw (Error "Not supported pixelRepresentation").
Proof.
  apply (proj2 (fromDicomImage_signed_rejected
                  (image_of Compression.None PhotometricInterpratation.Monochrome2 1 16 16 15
                     PixelRepresentation.Signed OW [Byte.x01; Byte.x02])
                  eq_refl));
    reflexivity.
Defined.

(** The checks of the grayscale path all pass. *)
Lemma grayScale_checks_pass (d : DicomImage.t) :
  DicomImage.compression d = Compression.None ->
  DicomImage.photometricInterpratation d = PhotometricInterpratation.Monochrome2 ->
  DicomImage.samplePerPixel d = 1 ->
  (DicomImage.pixelDataVr d = OW -> DicomImage.bitsAllocated d = 16) ->
  DicomImage.highBit d + 1 = DicomImage.bitsStored d ->
  DicomImage.pixelRepresentation d = PixelRepresentation.Unsigned ->
  Image_.fromDicomImage d
  = match kind_of_bitsAllocated (DicomImage.bitsAllocated d) with
    | Some k =>
        bind (TypedArray.of_buffer k (TypedArray.buffer (DicomImage.pixelData d)))
          (fun imagePixelData =>
             Return (Image.grayScale (DicomImage.rows d) (DicomImage.columns d) imagePixelData))
    | None => Throw (Error "Not supported bitsAllocated")
    end.
Proof.
  intros Hc Hpi Hspp Hvr Hbits Hrep.
  rewrite fromDicomImage_grayscale
    by (unfold grayscale_preconditions; rewrite Hc, Hpi, Hspp; reflexivity).
  rewrite grayScale_unfold. cbn.
  replace (_ && _) with false.
  2:{ symmetry. destruct (DicomImage.pixelDataVr d); [reflexivity|].
      rewrite (Hvr eq_refl). reflexivity. }
  apply Z.eqb_eq in Hbits. rewrite Hbits, Hpi, Hrep. reflexivity.
Qed.

(** X4. With every earlier check passed, a number of bits allocated other
    than 8, 16 and 32 is rejected with "Not supported bitsAllocated". *)
Theorem fromDicomImage_bit_depth_rejected (d : DicomImage.t) :
  DicomImage.compression d = Compression.None ->
  DicomImage.photometricInterpratation d = PhotometricInterpratation.Monochrome2 ->
  DicomImage.samplePerPixel d = 1 ->
  DicomImage.pixelDataVr d = OB ->
  DicomImage.highBit d + 1 = DicomImage.bitsStored d ->
  DicomImage.pixelRepresentation d = PixelRepresentation.Unsigned ->
  DicomImage.bitsAllocated d <> 8 ->
  DicomImage.bitsAllocated d <> 16 ->
  DicomImage.bitsAllocated d <> 32 ->
  Image_.fromDicomImage d = Throw (Error "Not supported bitsAllocated").
Proof.
  intros Hc Hpi Hspp Hvr Hbits Hrep H8 H16 H32.
  rewrite grayScale_checks_pass; try assumption.
  - unfold kind_of_bitsAllocated.
    apply Z.eqb_neq in H8, H16, H32. rewrite H8, H16, H32. reflexivity.
  - rewrite Hvr. discriminate.
Qed.

Lemma fromDicomImage_bit_depth_rejected_witness :
  Image_.fromDicomImage
    (image_of Compression.None PhotometricInterpratation.Monochrome2 1 12 12 11
       PixelRepresentation.Unsigned OB [Byte.x01; Byte.x02; Byte.x03])
  = Throw (Error "Not supported bitsAllocated").
Proof.
  apply (fromDicomImage_bit_depth_rejected
           (image_of Compression.None PhotometricInterpratation.Monochrome2 1 12 12 11
              PixelRepresentation.Unsigned OB [Byte.x01; Byte.x02; Byte.x03]));
    try reflexivity; cbv; discriminate.
Defined.

(** X5. With every check passed, a pixel-data buffer whose length is not a
    multiple of the sample size makes the decoder throw the runtime's
    RangeError, not one of its own errors. *)
Theorem fromDicomImage_misfit_RangeError (d : DicomImage.t) (k : ElementKind) :
  DicomImage.compression d = Compression.None ->
  DicomImage.photometricInterpratation d = PhotometricInterpratation.Monochrome2 ->
  DicomImage.samplePerPixel d = 1 ->
  (DicomImage.pixelDataVr d = OW -> DicomImage.bitsAllocated d = 16) ->
  DicomImage.highBit d + 1 = DicomImage.bitsStored d ->
  DicomImage.pixelRepresentation d = PixelRepresentation.Unsigned ->
  kind_of_bitsAllocated (DicomImage.bitsAllocated d) = Some k ->
  (List.length (TypedArray.buffer (DicomImage.pixelData d)) mod BYTES_PER_ELEMENT k <> 0)%nat ->
  Image_.fromDicomImage d = Throw RangeError.
Proof.
  intros Hc Hpi Hspp Hvr Hbits Hrep Hk Hfit.
  rewrite grayScale_checks_pass by assumption.
  rewrite Hk, (of_buffer_misfit k _ Hfit). reflexivity.
Qed.

Lemma fromDicomImage_misfit_RangeError_witness :
  Image_.fromDicomImage
    (image_of Compression.None PhotometricInterpratation.Monochrome2 1 16 16 15
       PixelRepresentation.Unsigned OW [Byte.x01; Byte.x02; Byte.x03])
  = Throw RangeError.
Proof.
  apply (fromDicomImage_misfit_RangeError
           (image_of Compression.None PhotometricInterpratation.Monochrome2 1 16 16 15
              PixelRepresentation.Unsigned OW [Byte.x01; Byte.x02; Byte.x03])
           Uint16);
    try reflexivity.
  cbv. discriminate.
Defined.

(** X6. The VR check comes before every other check of the grayscale path:
    an uncompressed monochrome image with one sample per pixel, VR OW and
    other than 16 bits allocated is rejected with "Not supported pixelData
    VR" whatever its photometric interpretation, bit layout, signedness and
    pixel data. *)
Theorem fromDicomImage_vr_rejected (d : DicomImage.t) :
  grayscale_preconditions d = true ->
  DicomImage.pixelDataVr d = OW ->
  DicomImage.bitsAllocated d <> 16 ->
  Image_.fromDicomImage d = Throw (Error "Not supported pixelData VR").
Proof.
  intros Hpre Hvr Hba.
  rewrite (fromDicomImage_grayscale d Hpre).
  apply grayScale_vr_check; assumption.
Qed.

Lemma fromDicomImage_vr_rejected_witness :
  Image_.fromDicomImage
    (image_of Compression.None PhotometricInterpratation.Monochrome1 1 8 16 3
       PixelRepresentation.Signed OW [Byte.x01])
  = Throw (Error "Not supported pixelData VR").
Proof.
  apply (fromDicomImage_vr_rejected
           (image_of Compression.None PhotometricInterpratation.Monochrome1 1 8 16 3
              PixelRepresentation.Signed OW [Byte.x01]));
    try reflexivity.
  cbv. discriminate.
Defined.

(** ** What the returned view holds *)

Lemma kind_of_bitsAllocated_inv (bitsAllocated : Z) (k : ElementKind) :
  kind_of_bitsAllocated bitsAllocated = Some k ->
  bitsAllocated = 8 * Z.of_nat (BYTES_PER_ELEMENT k).
Proof.
  unfold kind_of_bitsAllocated.
  destruct (Z.eqb_spec bitsAllocated 8) as [->|_]; [intros [= <-]; reflexivity|].
  destruct (Z.eqb_spec bitsAllocated 16) as [->|_]; [intros [= <-]; reflexivity|].
  destruct (Z.eqb_spec bitsAllocated 32) as [->|_]; [intros [= <-]; reflexivity|].
  discriminate.
Qed.

(** X7. For each supported width (8, 16 or 32 bits allocated) and whatever
    the number of bits stored, as long as high bit + 1 = bits stored: a
    buffer of little-endian samples of that width decodes, on a
    little-endian platform, to exactly those samples.  Nothing is masked
    down to the bits stored. *)
Theorem fromDicomImage_roundtrip_any_width
    (d : DicomImage.t) (k : ElementKind) (samples : list Z) :
  DicomImage.compression d = Compression.None ->
  DicomImage.photometricInterpratation d = PhotometricInterpratation.Monochrome2 ->
  DicomImage.samplePerPixel d = 1 ->
  (DicomImage.pixelDataVr d = OW -> DicomImage.bitsAllocated d = 16) ->
  DicomImage.highBit d + 1 = DicomImage.bitsStored d ->
  DicomImage.pixelRepresentation d = PixelRepresentation.Unsigned ->
  kind_of_bitsAllocated (DicomImage.bitsAllocated d) = Some k ->
  Forall (fun v => 0 <= v < 2 ^ DicomImage.bitsAllocated d) samples ->
  TypedArray.buffer (DicomImage.pixelData d)
    = samples_buffer Endianness.LittleEndian (BYTES_PER_ELEMENT k) samples ->
  exists pixels : TypedArray.t,
    Image_.fromDicomImage d
      = Return (Image.grayScale (DicomImage.rows d) (DicomImage.columns d) pixels)
    /\ TypedArray.kind pixels = k
    /\ TypedArray.elements Endianness.LittleEndian pixels = samples.
Proof.
  intros Hc Hpi Hspp Hvr Hbits Hrep Hk Hrange Hbuf.
  rewrite grayScale_checks_pass by assumption.
  rewrite Hk, Hbuf, of_buffer_samples. cbn [bind].
  eexists. split; [reflexivity|]. split; [reflexivity|].
  apply elements_samples.
  rewrite (kind_of_bitsAllocated_inv _ _ Hk) in Hrange.
  rewrite Z.mul_comm. exact Hrange.
Qed.

Lemma fromDicomImage_roundtrip_any_width_witness :
  exists pixels : TypedArray.t,
    Image_.fromDicomImage
      (image_of Compression.None PhotometricInterpratation.Monochrome2 1 16 12 11
         PixelRepresentation.Unsigned OW [Byte.xff; Byte.xff; Byte.x34; Byte.x02])
    = Return (Image.grayScale 1 2 pixels)
    /\ TypedArray.kind pixels = Uint16
    /\ TypedArray.elements Endianness.LittleEndian pixels = [65535; 564].
Proof.
  apply (fromDicomImage_roundtrip_any_width
           (image_of Compression.None PhotometricInterpratation.Monochrome2 1 16 12 11
              PixelRepresentation.Unsigned OW [Byte.xff; Byte.xff; Byte.x34; Byte.x02])
           Uint16 [65535; 564]);
    try reflexivity.
  repeat constructor; cbn; lia.
Defined.

(** The list of chunks read back through any function of a chunk. *)
Lemma chunk_at_map {A B C : Type} (f : A -> list B) (n : nat) (g : list B -> C)
    (l : list A) :
  (forall x, List.length (f x) = n) ->
  map (fun i => g (firstn n (skipn (i * n) (flat_map f l)))) (seq 0 (List.length l))
  = map (fun x => g (f x)) l.
Proof.
  intros Hlen.
  induction l as [|x l IH]; [reflexivity|].
  cbn [List.length seq map]. f_equal.
  - change (0 * n)%nat with 0%nat.
    rewrite skipn_O, (firstn_flat_map_chunk f n Hlen). reflexivity.
  - rewrite <- seq_shift, map_map, <- IH.
    apply map_ext. intros i.
    rewrite !(skipn_flat_map_chunks f n Hlen). reflexivity.
Qed.

Lemma flat_map_singleton {A : Type} (l : list A) : flat_map (fun x => [x]) l = l.
Proof. induction l as [|x l IH]; simpl; [|rewrite IH]; reflexivity. Qed.

(** A byte-wide view reads the same on every platform: its elements are the
    bytes of the buffer. *)
Lemma elements_Uint8 (platform : Endianness.t) (buf : ArrayBuffer) :
  TypedArray.elements platform (whole_buffer_view Uint8 buf) = map byte.unsigned buf.
Proof.
  unfold TypedArray.elements, TypedArray.element_bytes, whole_buffer_view.
  cbn [TypedArray.kind TypedArray.buffer TypedArray.byteOffset TypedArray.length
       BYTES_PER_ELEMENT Nat.add].
  rewrite Nat.div_1_r.
  transitivity (map (fun b : byte => TypedArray.combine platform [b]) buf).
  - rewrite <- (chunk_at_map (fun b : byte => [b]) 1 (TypedArray.combine platform) buf)
      by reflexivity.
    rewrite flat_map_singleton. reflexivity.
  - apply map_ext. intros b.
    destruct platform; cbn [TypedArray.combine rev app]; apply le_combine_1.
Qed.

(** X8. An 8-bit image (VR OB, high bit + 1 = bits stored) decodes to a
    view whose elements are the bytes of the pixel-data buffer, one sample
    per byte, on a platform of either byte order and for a buffer of any
    length. *)
Theorem fromDicomImage_8bit_bytes (d : DicomImage.t) :
  DicomImage.compression d = Compression.None ->
  DicomImage.photometricInterpratation d = PhotometricInterpratation.Monochrome2 ->
  DicomImage.samplePerPixel d = 1 ->
  DicomImage.pixelDataVr d = OB ->
  DicomImage.bitsAllocated d = 8 ->
  DicomImage.highBit d + 1 = DicomImage.bitsStored d ->
  DicomImage.pixelRepresentation d = PixelRepresentation.Unsigned ->
  exists pixels : TypedArray.t,
    Image_.fromDicomImage d
      = Return (Image.grayScale (DicomImage.rows d) (DicomImage.columns d) pixels)
    /\ forall platform : Endianness.t,
         TypedArray.elements platform pixels
         = map byte.unsigned (TypedArray.buffer (DicomImage.pixelData d)).
Proof.
  intros Hc Hpi Hspp Hvr Hba Hbits Hrep.
  rewrite grayScale_checks_pass; try assumption.
  - rewrite Hba. cbn [kind_of_bitsAllocated Z.eqb Pos.eqb].
    rewrite of_buffer_fits by (cbn [BYTES_PER_ELEMENT]; apply Nat.mod_1_r).
    cbn [bind]. eexists. split; [reflexivity|].
    intros platform. apply elements_Uint8.
  - rewrite Hvr. discriminate.
Qed.

Lemma fromDicomImage_8bit_bytes_witness :
  exists pixels : TypedArray.t,
    Image_.fromDicomImage
      (image_of Compression.None PhotometricInterpratation.Monochrome2 1 8 8 7
         PixelRepresentation.Unsigned OB [Byte.x01; Byte.xff; Byte.x80])
    = Return (Image.grayScale 1 2 pixels)
    /\ forall platform : Endianness.t,
         TypedArray.elements platform pixels = [1; 255; 128].
Proof.
  apply (fromDicomImage_8bit_bytes
           (image_of Compression.None PhotometricInterpratation.Monochrome2 1 8 8 7
              PixelRepresentation.Unsigned OB [Byte.x01; Byte.xff; Byte.x80]));
    reflexivity.
Defined.

(** Two bytes, low byte first. *)
Lemma le_combine_2 (a b : byte) :
  le_combine [a; b] = byte.unsigned a + 256 * byte.unsigned b.
Proof.
  change (le_combine [a; b])
    with (Z.lor (byte.unsigned a) (Z.shiftl (Z.lor (byte.unsigned b) 0) 8)).
  rewrite Z.lor_0_r.
  pose proof (byte.unsigned_range a) as Ha.
  assert (Hdisjoint : Z.land (byte.unsigned a) (Z.shiftl (byte.unsigned b) 8) = 0).
  { apply Z.bits_inj'. intros n Hn.
    rewrite Z.land_spec, Z.bits_0.
    destruct (Z.lt_ge_cases n 8) as [Hlow | Hhigh].
    - rewrite (Z.shiftl_spec_low _ _ _ Hlow). apply andb_false_r.
    - replace (Z.testbit (byte.unsigned a) n) with false; [reflexivity|].
      symmetry. rewrite <- (Z.mod_small (byte.unsigned a) (2 ^ 8)) by exact Ha.
      apply Z.mod_pow2_bits_high. lia. }
  rewrite <- (Z.lxor_lor _ _ Hdisjoint), <- (Z.add_nocarry_lxor _ _ Hdisjoint).
  rewrite Z.shiftl_mul_pow2 by lia. lia.
Qed.

(** A 16-bit sample written in one byte order and read in the other comes
    back with its bytes exchanged. *)
Lemma combine_other_order (v : Z) :
  0 <= v < 2 ^ 16 ->
  TypedArray.combine Endianness.LittleEndian (sample_bytes Endianness.BigEndian 2 v)
  = swap16 v.
Proof.
  intros Hv. unfold swap16.
  cbn [TypedArray.combine sample_bytes].
  change (rev (le_split 2 v)) with [byte.of_Z (Z.shiftr v 8); byte.of_Z v].
  rewrite le_combine_2, !byte.unsigned_of_Z. unfold byte.wrap.
  rewrite Z.shiftr_div_pow2 by lia.
  change (2 ^ 8) with 256.
  rewrite (Z.mod_small (v / 256) 256); [lia|].
  split; [apply Z.div_pos; lia | apply Z.div_lt_upper_bound; lia].
Qed.

Lemma elements_other_order (samples : list Z) :
  Forall (fun v => 0 <= v < 2 ^ 16) samples ->
  TypedArray.elements Endianness.LittleEndian
    {| TypedArray.kind := Uint16;
       TypedArray.buffer := samples_buffer Endianness.BigEndian 2 samples;
       TypedArray.byteOffset := 0;
       TypedArray.length := List.length samples |}
  = map swap16 samples.
Proof.
  intros Hrange.
  unfold TypedArray.elements, TypedArray.element_bytes, samples_buffer.
  cbn [TypedArray.kind TypedArray.buffer TypedArray.byteOffset TypedArray.length
       BYTES_PER_ELEMENT Nat.add].
  rewrite (chunk_at_map (sample_bytes Endianness.BigEndian 2) 2
             (TypedArray.combine Endianness.LittleEndian) samples)
    by (intros v; apply sample_bytes_length).
  apply map_ext_in. intros v Hin. apply combine_other_order.
  rewrite Forall_forall in Hrange. apply Hrange, Hin.
Qed.

(** X9. For every 16-bit image whose pixel data holds big-endian samples,
    whatever byte order the image declares, the decoder returns a view
    that reads as those samples on a big-endian platform only; on a
    little-endian platform every element is the sample with its two bytes
    exchanged. *)
Theorem fromDicomImage_big_endian_samples_swapped (d : DicomImage.t) (samples : list Z) :
  DicomImage.compression d = Compression.None ->
  DicomImage.photometricInterpratation d = PhotometricInterpratation.Monochrome2 ->
  DicomImage.samplePerPixel d = 1 ->
  DicomImage.bitsAllocated d = 16 ->
  DicomImage.highBit d + 1 = DicomImage.bitsStored d ->
  DicomImage.pixelRepresentation d = PixelRepresentation.Unsigned ->
  Forall (fun v => 0 <= v < 2 ^ 16) samples ->
  TypedArray.buffer (DicomImage.pixelData d)
    = samples_buffer Endianness.BigEndian 2 samples ->
  exists pixels : TypedArray.t,
    Image_.fromDicomImage d
      = Return (Image.grayScale (DicomImage.rows d) (DicomImage.columns d) pixels)
    /\ TypedArray.elements Endianness.BigEndian pixels = samples
    /\ TypedArray.elements Endianness.LittleEndian pixels = map swap16 samples.
Proof.
  intros Hc Hpi Hspp Hba Hbits Hrep Hrange Hbuf.
  rewrite grayScale_checks_pass; try assumption; [|intros _; exact Hba].
  rewrite Hba, Hbuf. cbn [kind_of_bitsAllocated Z.eqb Pos.eqb].
  change 2%nat with (BYTES_PER_ELEMENT Uint16).
  rewrite of_buffer_samples. cbn [bind].
  eexists. split; [reflexivity|]. split.
  - apply elements_samples. exact Hrange.
  - apply elements_other_order. exact Hrange.
Qed.

Lemma fromDicomImage_big_endian_samples_swapped_witness :
  exists pixels : TypedArray.t,
    Image_.fromDicomImage (image_u16 Endianness.BigEndian OW)
    = Return (Image.grayScale 1 2 pixels)
    /\ TypedArray.elements Endianness.BigEndian pixels = [258; 772]
    /\ TypedArray.elements Endianness.LittleEndian pixels = map swap16 [258; 772].
Proof.
  apply (fromDicomImage_big_endian_samples_swapped
           (image_u16 Endianness.BigEndian OW) [258; 772]);
    try reflexivity.
  repeat constructor; lia.
Defined.

(** X10. The outcome of [fromDicomImage] is fixed by compression,
    photometric interpretation, samples per pixel, the bit layout, pixel
    representation, VR, rows, columns and the buffer under the pixel data.
    The declared byte order, the planar configuration, the windowing hints
    and the offset and length of the pixel-data view are never looked at. *)
Theorem fromDicomImage_depends_on (d d' : DicomImage.t) :
  DicomImage.compression d = DicomImage.compression d' ->
  DicomImage.photometricInterpratation d = DicomImage.photometricInterpratation d' ->
  DicomImage.samplePerPixel d = DicomImage.samplePerPixel d' ->
  DicomImage.bitsAllocated d = DicomImage.bitsAllocated d' ->
  DicomImage.bitsStored d = DicomImage.bitsStored d' ->
  DicomImage.highBit d = DicomImage.highBit d' ->
  DicomImage.pixelRepresentation d = DicomImage.pixelRepresentation d' ->
  DicomImage.pixelDataVr d = DicomImage.pixelDataVr d' ->
  DicomImage.rows d = DicomImage.rows d' ->
  DicomImage.columns d = DicomImage.columns d' ->
  TypedArray.buffer (DicomImage.pixelData d) = TypedArray.buffer (DicomImage.pixelData d') ->
  Image_.fromDicomImage d = Image_.fromDicomImage d'.
Proof.
  intros Hc Hpi Hspp Hba Hbs Hhb Hrep Hvr Hrows Hcols Hbuf.
  unfold Image_.fromDicomImage, Image_._fromDataForImageGrayScale.
  rewrite Hc, Hpi, Hspp, Hba, Hbs, Hhb, Hrep, Hvr, Hrows, Hcols.
  cbn [DataForImageGrayScale.pixelData]. rewrite Hbuf. reflexivity.
Qed.

Lemma fromDicomImage_depends_on_witness :
  Image_.fromDicomImage (image_u16 Endianness.BigEndian OW)
  = Image_.fromDicomImage
      {| DicomImage.compression := Compression.None;
         DicomImage.endianness := Endianness.LittleEndian;
         DicomImage.rows := 1;
         DicomImage.columns := 2;
         DicomImage.samplePerPixel := 1;
         DicomImage.photometricInterpratation := PhotometricInterpratation.Monochrome2;
         DicomImage.planarConfiguration := None;
         DicomImage.bitsAllocated := 16;
         DicomImage.bitsStored := 16;
         DicomImage.highBit := 15;
         DicomImage.pixelRepresentation := PixelRepresentation.Unsigned;
         DicomImage.pixelData :=
           {| TypedArray.kind := Uint8;
              TypedArray.buffer := [Byte.x01; Byte.x02; Byte.x03; Byte.x04];
              TypedArray.byteOffset := 2;
              TypedArray.length := 2 |};
         DicomImage.pixelDataVr := OW;
         DicomImage.voiLutModule :=
           {| VoiLutModuleHint.windowCenter := Some (of_Z 40);
              VoiLutModuleHint.windowWidth := None;
              VoiLutModuleHint.voiLutFunction := Some VoiLutFunction.Sigmoid |} |}.
Proof.
  apply fromDicomImage_depends_on; reflexivity.
Defined.

(** ** The metadata extractor, outcome by outcome *)

(** One step through the chain of early returns of [_fromDataSet]. *)
Ltac extractor_step :=
  match goal with
  | |- match ?x with _ => _ end = _ -> _ => destruct x eqn:?; try discriminate
  end.

Lemma planar_code_inv (code : option Z) (p : PlanarConfiguration.t) :
  (let v := match code with Some v => v | None => 0 end in
   if (v =? 0)%Z then Some PlanarConfiguration.Interlaced
   else if (v =? 1)%Z then Some PlanarConfiguration.Separated
   else None) = Some p ->
  (p = PlanarConfiguration.Interlaced /\ (code = None \/ code = Some 0))
  \/ (p = PlanarConfiguration.Separated /\ code = Some 1).
Proof.
  cbv zeta. destruct code as [v|].
  - destruct (Z.eqb_spec v 0) as [->|_]; [intros [= <-]; left; auto|].
    destruct (Z.eqb_spec v 1) as [->|_]; [intros [= <-]; right; auto|].
    discriminate.
  - intros [= <-]. left. auto.
Qed.

Lemma representation_code_inv (code : Z) (r : PixelRepresentation.t) :
  (if (code =? 0)%Z then Some PixelRepresentation.Unsigned
   else if (code =? 1)%Z then Some PixelRepresentation.Signed
   else None) = Some r ->
  (r = PixelRepresentation.Unsigned /\ code = 0)
  \/ (r = PixelRepresentation.Signed /\ code = 1).
Proof.
  destruct (Z.eqb_spec code 0) as [->|_]; [intros [= <-]; left; auto|].
  destruct (Z.eqb_spec code 1) as [->|_]; [intros [= <-]; right; auto|].
  discriminate.
Qed.

Lemma vr_code_inv (code : option string) (vr : PixelDataVr) :
  (let v := match code with Some v => v | None => "OB" end in
   if (v =? "OB")%string then Some OB
   else if (v =? "OW")%string then Some OW
   else None) = Some vr ->
  (vr = OB /\ (code = None \/ code = Some "OB"))
  \/ (vr = OW /\ code = Some "OW").
Proof.
  cbv zeta. destruct code as [v|].
  - destruct (String.eqb_spec v "OB") as [->|_]; [intros [= <-]; left; auto|].
    destruct (String.eqb_spec v "OW") as [->|_]; [intros [= <-]; right; auto|].
    discriminate.
  - intros [= <-]. left. auto.
Qed.

Lemma fromDataSet_Ok_inv (dataSet : DataSet.t) (image : DicomImage.t) :
  DicomImage._fromDataSet dataSet = Return (Ok image) -> extracts_to dataSet image.
Proof.
  unfold DicomImage._fromDataSet, extracts_to. fold (transferSyntax_of dataSet).
  cbv zeta.
  destruct (DicomImage.TransferSyntax_.toCompressionAndEndianness _) as [c e].
  repeat extractor_step.
  intros [= <-].
  cbn [DicomImage.compression DicomImage.endianness DicomImage.rows DicomImage.columns
       DicomImage.samplePerPixel DicomImage.photometricInterpratation
       DicomImage.planarConfiguration DicomImage.bitsAllocated DicomImage.bitsStored
       DicomImage.highBit DicomImage.pixelRepresentation DicomImage.pixelData
       DicomImage.pixelDataVr DicomImage.voiLutModule].
  repeat match goal with
         | H : _ = Some ?p |- _ =>
             lazymatch type of p with
             | PlanarConfiguration.t => apply planar_code_inv in H
             | PixelRepresentation.t => apply representation_code_inv in H
             | PixelDataVr => apply vr_code_inv in H
             end
         end.
  repeat split; try reflexivity; try assumption.
  - match goal with
    | H : (_ /\ (DataSet.uint16 _ _ = None \/ _)) \/ _ |- _ =>
        destruct H as [[-> H] | [-> H]]; [left | right]; auto
    end.
  - match goal with
    | H : (_ /\ ?z = 0) \/ (_ /\ ?z = 1) |- _ =>
        destruct H as [[-> ->] | [-> ->]]; [left | right]; auto
    end.
  - eexists. split; [reflexivity|]. split; [|reflexivity].
    match goal with
    | H : (_ /\ (Element.vr _ = None \/ _)) \/ _ |- _ =>
        destruct H as [[-> H] | [-> H]]; [left | right]; auto
    end.
Qed.

Lemma fromDataSet_Ok_intro (dataSet : DataSet.t) (image : DicomImage.t) :
  extracts_to dataSet image -> DicomImage._fromDataSet dataSet = Return (Ok image).
Proof.
  unfold extracts_to.
  intros (Hts & Hrows & Hcols & Hspp & Hpi & Hplanar & Hba & Hbs & Hhb & Hrep
          & (el & Hel & Hvr & Hdata) & Hvoi & Hseq).
  unfold DicomImage._fromDataSet. fold (transferSyntax_of dataSet).
  cbv zeta. rewrite <- Hts, Hrows, Hcols, Hspp, Hpi, Hba, Hbs, Hhb, Hel, Hseq.
  destruct image as [c e rows cols spp pi planar ba bs hb rep data vr voi].
  cbn [DicomImage.compression DicomImage.endianness DicomImage.rows DicomImage.columns
       DicomImage.samplePerPixel DicomImage.photometricInterpratation
       DicomImage.planarConfiguration DicomImage.bitsAllocated DicomImage.bitsStored
       DicomImage.highBit DicomImage.pixelRepresentation DicomImage.pixelData
       DicomImage.pixelDataVr DicomImage.voiLutModule] in *.
  subst data voi.
  destruct Hplanar as [[-> [-> | ->]] | [-> ->]];
    destruct Hrep as [[-> ->] | [-> ->]];
    destruct Hvr as [[-> [-> | ->]] | [-> ->]];
    reflexivity.
Qed.

(** X11. Extraction succeeds exactly when every required tag is present
    and in range, a pixel-data element exists and no VOI LUT sequence does;
    the image then carries the tag values as they are: rows, columns,
    samples per pixel, the photometric string, the three bit counts, the
    planar configuration (Interlaced when the tag is absent), the pixel
    representation, the VR (OB when the element has none), a fresh copy of
    the element's bytes, the window hints, and the compression and byte
    order of the resolved transfer syntax. *)
Theorem fromDataSet_Ok_iff (dataSet : DataSet.t) (image : DicomImage.t) :
  DicomImage._fromDataSet dataSet = Return (Ok image) <-> extracts_to dataSet image.
Proof.
  split; [apply fromDataSet_Ok_inv | apply fromDataSet_Ok_intro].
Qed.

Lemma fromDataSet_Ok_iff_witness :
  extracts_to (dataset_uid "1.2.840.10008.1.2.1")
    (image_of Compression.None PhotometricInterpratation.Monochrome2 1 16 16 15
       PixelRepresentation.Unsigned OW [Byte.x01; Byte.x02; Byte.x03; Byte.x04]).
Proof.
  apply (proj1 (fromDataSet_Ok_iff _ _)). reflexivity.
Defined.

(** ** The copy of the pixel data *)

Lemma copied_bytes_length (dataSet : DataSet.t) (e : Element.t) :
  List.length (copied_bytes dataSet e) = Element.length e.
Proof. unfold copied_bytes. rewrite length_map, length_seq. reflexivity. Qed.

Lemma copied_bytes_nth (dataSet : DataSet.t) (e : Element.t) (i : nat) :
  (i < Element.length e)%nat ->
  nth i (copied_bytes dataSet e) Byte.x00
  = nth (Element.dataOffset e + i) (DataSet.byteArray dataSet) Byte.x00.
Proof.
  intros Hi. unfold copied_bytes.
  rewrite (nth_indep _ Byte.x00
             (nth (Element.dataOffset e + 0) (DataSet.byteArray dataSet) Byte.x00))
    by (rewrite length_map, length_seq; exact Hi).
  rewrite (map_nth (fun idx => nth (Element.dataOffset e + idx)
                                 (DataSet.byteArray dataSet) Byte.x00)).
  rewrite seq_nth by exact Hi. reflexivity.
Qed.

Lemma copied_bytes_slice (dataSet : DataSet.t) (e : Element.t) :
  (Element.dataOffset e + Element.length e <= List.length (DataSet.byteArray dataSet))%nat ->
  copied_bytes dataSet e
  = firstn (Element.length e) (skipn (Element.dataOffset e) (DataSet.byteArray dataSet)).
Proof.
  intros Hin.
  apply (nth_ext _ _ Byte.x00 Byte.x00).
  - rewrite copied_bytes_length, length_firstn, length_skipn. lia.
  - rewrite copied_bytes_length. intros i Hi.
    rewrite (copied_bytes_nth _ _ _ Hi), nth_firstn.
    apply Nat.ltb_lt in Hi. rewrite Hi.
    rewrite nth_skipn. reflexivity.
Qed.

(** X12. The pixel data of an extracted image is a byte array on a buffer
    of its own, exactly as long as the element says.  When the element
    lies within the source byte array the buffer is that slice of it; a
    position past the end of the source holds a zero byte. *)
Theorem fromDataSet_pixelData_copy
    (dataSet : DataSet.t) (image : DicomImage.t) (pixelDataElement : Element.t) :
  DicomImage._fromDataSet dataSet = Return (Ok image) ->
  DataSet.elements dataSet "x7fe00010" = Some pixelDataElement ->
  TypedArray.kind (DicomImage.pixelData image) = Uint8
  /\ TypedArray.byteOffset (DicomImage.pixelData image) = 0%nat
  /\ TypedArray.length (DicomImage.pixelData image) = Element.length pixelDataElement
  /\ List.length (TypedArray.buffer (DicomImage.pixelData image))
     = Element.length pixelDataElement
  /\ ((Element.dataOffset pixelDataElement + Element.length pixelDataElement
       <= List.length (DataSet.byteArray dataSet))%nat ->
      TypedArray.buffer (DicomImage.pixelData image)
      = firstn (Element.length pixelDataElement)
          (skipn (Element.dataOffset pixelDataElement) (DataSet.byteArray dataSet)))
  /\ (forall i : nat,
        (i < Element.length pixelDataElement)%nat ->
        (List.length (DataSet.byteArray dataSet) <= Element.dataOffset pixelDataElement + i)%nat ->
        nth i (TypedArray.buffer (DicomImage.pixelData image)) Byte.x00 = Byte.x00).
Proof.
  intros Hok Hel. apply fromDataSet_Ok_inv in Hok.
  destruct Hok as (_ & _ & _ & _ & _ & _ & _ & _ & _ & _ & (el & Hel' & _ & Hdata) & _).
  rewrite Hel in Hel'. injection Hel' as <-. rewrite Hdata.
  cbn [TypedArray.of_bytes TypedArray.kind TypedArray.byteOffset TypedArray.length
       TypedArray.buffer].
  rewrite copied_bytes_length.
  repeat split.
  - apply copied_bytes_slice.
  - intros i Hi Hout. rewrite (copied_bytes_nth _ _ _ Hi).
    apply nth_overflow. exact Hout.
Qed.

Lemma fromDataSet_pixelData_copy_witness :
  exists image : DicomImage.t,
    DicomImage._fromDataSet (dataset_uid "1.2.840.10008.1.2.1") = Return (Ok image)
    /\ TypedArray.buffer (DicomImage.pixelData image)
       = [Byte.x01; Byte.x02; Byte.x03; Byte.x04].
Proof.
  eexists. split; [reflexivity|].
  apply (fromDataSet_pixelData_copy (dataset_uid "1.2.840.10008.1.2.1") _
           (sample_element (Some "OW")) eq_refl eq_refl).
  cbv. lia.
Defined.

(** ** How extraction fails *)

Ltac unfold_extractor :=
  unfold DicomImage._fromDataSet; cbv zeta;
  destruct (DicomImage.TransferSyntax_.toCompressionAndEndianness _) as [? ?].

Ltac in_list := repeat first [left; reflexivity | right].

(** X13. Extraction throws only for want of a pixel-data element: whatever
    it throws is a TypeError and the element is then absent; with every tag
    before it in order, an absent element does make it throw; with the
    element present it always returns a result. *)
Theorem fromDataSet_Throw (dataSet : DataSet.t) :
  (forall e : Exception,
     DicomImage._fromDataSet dataSet = Throw e ->
     e = TypeError /\ DataSet.elements dataSet "x7fe00010" = None)
  /\ (forall (raw : string)
        (rows columns samplePerPixel bitsAllocated bitsStored highBit pixelRepresentation : Z),
        DataSet.uint16 dataSet "x00280010" = Some rows ->
        DataSet.uint16 dataSet "x00280011" = Some columns ->
        DataSet.uint16 dataSet "x00280002" = Some samplePerPixel ->
        DataSet.string dataSet "x00280004" = Some raw ->
        (DataSet.uint16 dataSet "x00280006" = None
         \/ DataSet.uint16 dataSet "x00280006" = Some 0
         \/ DataSet.uint16 dataSet "x00280006" = Some 1) ->
        DataSet.uint16 dataSet "x00280100" = Some bitsAllocated ->
        DataSet.uint16 dataSet "x00280101" = Some bitsStored ->
        DataSet.uint16 dataSet "x00280102" = Some highBit ->
        DataSet.uint16 dataSet "x00280103" = Some pixelRepresentation ->
        (pixelRepresentation = 0 \/ pixelRepresentation = 1) ->
        DataSet.elements dataSet "x7fe00010" = None ->
        DicomImage._fromDataSet dataSet = Throw TypeError)
  /\ (DataSet.elements dataSet "x7fe00010" <> None ->
      exists result : Result DicomImage.t string,
        DicomImage._fromDataSet dataSet = Return result).
Proof.
  assert (Hthrow : forall e : Exception,
             DicomImage._fromDataSet dataSet = Throw e ->
             e = TypeError /\ DataSet.elements dataSet "x7fe00010" = None).
  { intros e. unfold_extractor. repeat extractor_step.
    intros [= <-]. split; reflexivity. }
  split; [exact Hthrow|]. split.
  - intros raw rows columns spp ba bs hb pr Hrows Hcols Hspp Hpi Hplanar Hba Hbs Hhb Hpr
      Hprv Hel.
    unfold_extractor.
    rewrite Hrows, Hcols, Hspp, Hpi, Hba, Hbs, Hhb, Hpr, Hel.
    destruct Hplanar as [-> | [-> | ->]]; destruct Hprv as [-> | ->]; reflexivity.
  - intros Hel. destruct (DicomImage._fromDataSet dataSet) as [result | e] eqn:Hres.
    + exists result. reflexivity.
    + destruct (Hthrow e eq_refl) as [_ Hnone]. contradiction.
Qed.

Lemma fromDataSet_Throw_witness :
  DicomImage._fromDataSet
    (dataset_of [("x00280004", "MONOCHROME2")] (uint16_tags 16 16 15 0) [] [] sample_byteArray)
  = Throw TypeError.
Proof.
  apply (proj1 (proj2 (fromDataSet_Throw
           (dataset_of [("x00280004", "MONOCHROME2")] (uint16_tags 16 16 15 0) [] []
              sample_byteArray)))
           "MONOCHROME2" 1 2 1 16 16 15 0);
    try reflexivity.
  - left. reflexivity.
  - left. reflexivity.
Defined.

(** X14. A tag source with a VOI LUT sequence element never yields an
    image, whatever its other tags. *)
Theorem fromDataSet_voiLutSequence_rejected
    (dataSet : DataSet.t) (voiLutSequenceElement : Element.t) :
  DataSet.elements dataSet "x00283010" = Some voiLutSequenceElement ->
  forall image : DicomImage.t, DicomImage._fromDataSet dataSet <> Return (Ok image).
Proof.
  intros Hseq image Hok. apply fromDataSet_Ok_inv in Hok.
  destruct Hok as (_ & _ & _ & _ & _ & _ & _ & _ & _ & _ & _ & _ & Hnone).
  congruence.
Qed.

Lemma fromDataSet_voiLutSequence_rejected_witness :
  DicomImage._fromDataSet
    (dataset_of [("x00280004", "MONOCHROME2")] (uint16_tags 16 16 15 0) []
       [("x7fe00010", sample_element None); ("x00283010", sample_element None)]
       sample_byteArray)
  = Return (Err "Not supported voiLutSequence")
  /\ forall image : DicomImage.t,
       DicomImage._fromDataSet
         (dataset_of [("x00280004", "MONOCHROME2")] (uint16_tags 16 16 15 0) []
            [("x7fe00010", sample_element None); ("x00283010", sample_element None)]
            sample_byteArray)
       <> Return (Ok image).
Proof.
  split; [reflexivity|].
  apply (fromDataSet_voiLutSequence_rejected _ (sample_element None)).
  reflexivity.
Defined.

(** X15. Extraction answers "DicomImage need to have rows" exactly when the
    rows tag is absent: the check comes first, so nothing else in the tag
    source matters, and no other failure uses that message. *)
Theorem fromDataSet_rows_first (dataSet : DataSet.t) :
  DicomImage._fromDataSet dataSet = Return (Err "DicomImage need to have rows")
  <-> DataSet.uint16 dataSet "x00280010" = None.
Proof.
  split.
  - unfold_extractor.
    destruct (DataSet.uint16 dataSet "x00280010") as [rows|]; [|reflexivity].
    repeat extractor_step.
  - intros Hrows. unfold_extractor. rewrite Hrows. reflexivity.
Qed.

Lemma fromDataSet_rows_first_witness :
  DicomImage._fromDataSet (dataset_of [] [] [] [] [])
  = Return (Err "DicomImage need to have rows").
Proof.
  apply (proj2 (fromDataSet_rows_first (dataset_of [] [] [] [] []))). reflexivity.
Defined.

(** X16. Every error extraction returns carries one of its twelve
    messages. *)
Theorem fromDataSet_Err_cases (dataSet : DataSet.t) (message : string) :
  DicomImage._fromDataSet dataSet = Return (Err message) -> In message extractor_errors.
Proof.
  unfold_extractor. unfold extractor_errors.
  repeat match goal with
         | |- match ?x with _ => _ end = _ -> _ => destruct x eqn:?
         end;
    intros [= <-]; in_list.
Qed.

Lemma fromDataSet_Err_cases_witness :
  In "DicomImage need to have rows" extractor_errors.
Proof.
  apply (fromDataSet_Err_cases (dataset_of [] [] [] [] [])). reflexivity.
Defined.

(** ** From the transfer syntax to the decoder *)

(** X17. When the UID tag is absent or holds a UID outside the table,
    extraction does not fail on it: the image it returns is marked
    uncompressed and big-endian. *)
Theorem fromDataSet_unrecognized_uid (dataSet : DataSet.t) (image : DicomImage.t) :
  DicomImage._fromDataSet dataSet = Return (Ok image) ->
  (forall uid : string,
     DataSet.string dataSet "x00020012" = Some uid -> ~ In uid recognized_UIDs) ->
  DicomImage.compression image = Compression.None
  /\ DicomImage.endianness image = Endianness.BigEndian.
Proof.
  intros Hok Hout. apply fromDataSet_Ok_inv in Hok. destruct Hok as (Hts & _).
  assert (Hdefault : transferSyntax_of dataSet = TransferSyntax.UncompressedBE).
  { unfold transferSyntax_of.
    destruct (DataSet.string dataSet "x00020012") as [uid|]; [|reflexivity].
    apply DicomImage_fromTransferSyntaxUID_unrecognized, Hout. reflexivity. }
  rewrite Hdefault in Hts. cbn in Hts. injection Hts as -> ->. split; reflexivity.
Qed.

Lemma fromDataSet_unrecognized_uid_witness :
  exists image : DicomImage.t,
    DicomImage._fromDataSet (dataset_uid "1.2.840.10008.1.2.4.100") = Return (Ok image)
    /\ DicomImage.compression image = Compression.None
    /\ DicomImage.endianness image = Endianness.BigEndian.
Proof.
  eexists. split; [reflexivity|].
  apply (fromDataSet_unrecognized_uid (dataset_uid "1.2.840.10008.1.2.4.100") _ eq_refl).
  intros uid [= <-]. unfold recognized_UIDs. simpl. intuition discriminate.
Defined.



(** X19. Extraction followed by decoding: when both succeed and the
    pixel-data element lies within the source byte array, the raster has
    the rows and columns of the tags and is a view, of the width the bits
    allocated call for, over exactly the element's slice of the source
    bytes. *)
Theorem decoded_raster_of_dataSet
    (dataSet : DataSet.t) (image : DicomImage.t) (raster : Image.t)
    (pixelDataElement : Element.t) :
  DicomImage._fromDataSet dataSet = Return (Ok image) ->
  Image_.fromDicomImage image = Return raster ->
  DataSet.elements dataSet "x7fe00010" = Some pixelDataElement ->
  (Element.dataOffset pixelDataElement + Element.length pixelDataElement
   <= List.length (DataSet.byteArray dataSet))%nat ->
  exists (rows columns bitsAllocated : Z) (k : ElementKind),
    DataSet.uint16 dataSet "x00280010" = Some rows
    /\ DataSet.uint16 dataSet "x00280011" = Some columns
    /\ DataSet.uint16 dataSet "x00280100" = Some bitsAllocated
    /\ kind_of_bitsAllocated bitsAllocated = Some k
    /\ raster
       = Image.grayScale rows columns
           (whole_buffer_view k
              (firstn (Element.length pixelDataElement)
                 (skipn (Element.dataOffset pixelDataElement) (DataSet.byteArray dataSet)))).
Proof.
  intros Hok Hdec Hel Hin.
  apply fromDataSet_Ok_inv in Hok.
  destruct Hok as (_ & Hrows & Hcols & _ & _ & _ & Hba & _ & _ & _
                   & (el & Hel' & _ & Hdata) & _).
  rewrite Hel in Hel'. injection Hel' as <-.
  apply fromDicomImage_Return_inv in Hdec.
  destruct Hdec as (_ & _ & _ & _ & _ & _ & k & Hk & _ & ->).
  exists (DicomImage.rows image), (DicomImage.columns image),
    (DicomImage.bitsAllocated image), k.
  repeat split; try assumption.
  rewrite Hdata. cbn [TypedArray.of_bytes TypedArray.buffer].
  rewrite (copied_bytes_slice _ _ Hin). reflexivity.
Qed.

Lemma decoded_raster_of_dataSet_witness :
  exists (rows columns bitsAllocated : Z) (k : ElementKind),
    DataSet.uint16 (dataset_uid "1.2.840.10008.1.2.1") "x00280010" = Some rows
    /\ DataSet.uint16 (dataset_uid "1.2.840.10008.1.2.1") "x00280011" = Some columns
    /\ DataSet.uint16 (dataset_uid "1.2.840.10008.1.2.1") "x00280100" = Some bitsAllocated
    /\ kind_of_bitsAllocated bitsAllocated = Some k
    /\ Image.grayScale 1 2 (whole_buffer_view Uint16 [Byte.x01; Byte.x02; Byte.x03; Byte.x04])
       = Image.grayScale rows columns
           (whole_buffer_view k
              (firstn 4 (skipn 2 (DataSet.byteArray (dataset_uid "1.2.840.10008.1.2.1"))))).
Proof.
  apply (decoded_raster_of_dataSet (dataset_uid "1.2.840.10008.1.2.1")
           (image_of Compression.None PhotometricInterpratation.Monochrome2 1 16 16 15
              PixelRepresentation.Unsigned OW [Byte.x01; Byte.x02; Byte.x03; Byte.x04])
           _ (sample_element (Some "OW")));
    reflexivity.
Defined.

(** X20. The windowing hints of an extracted image: center and width are
    the values of their tags; a VOI LUT function tag is carried as it is,
    whatever string it holds; without that tag the function is Linear when
    there is a window center and absent when there is none, a window width
    alone making no difference. *)
Theorem fromDataSet_hints (dataSet : DataSet.t) (image : DicomImage.t) :
  DicomImage._fromDataSet dataSet = Return (Ok image) ->
  VoiLutModuleHint.windowCenter (DicomImage.voiLutModule image)
    = DataSet.floatString dataSet "x00281050"
  /\ VoiLutModuleHint.windowWidth (DicomImage.voiLutModule image)
     = DataSet.floatString dataSet "x00281051"
  /\ (forall f : string,
        DataSet.string dataSet "x00281056" = Some f ->
        VoiLutModuleHint.voiLutFunction (DicomImage.voiLutModule image) = Some f)
  /\ (DataSet.string dataSet "x00281056" = None ->
      DataSet.floatString dataSet "x00281050" = None ->
      VoiLutModuleHint.voiLutFunction (DicomImage.voiLutModule image) = None).
Proof.
  intros Hok. apply fromDataSet_Ok_inv in Hok.
  destruct Hok as (_ & _ & _ & _ & _ & _ & _ & _ & _ & _ & _ & Hvoi & _).
  rewrite Hvoi. cbn.
  repeat split.
  - intros f ->. reflexivity.
  - intros -> ->. reflexivity.
Qed.

Lemma fromDataSet_hints_witness :
  exists image : DicomImage.t,
    DicomImage._fromDataSet
      (dataset_of [("x00280004", "MONOCHROME2"); ("x00281056", "NOT-A-FUNCTION")]
         (uint16_tags 16 16 15 0) [("x00281051", of_Z 400)]
         [("x7fe00010", sample_element None)] sample_byteArray)
    = Return (Ok image)
    /\ DicomImage.voiLutModule image
       = {| VoiLutModuleHint.windowCenter := None;
            VoiLutModuleHint.windowWidth := Some (of_Z 400);
            VoiLutModuleHint.voiLutFunction := Some "NOT-A-FUNCTION" |}.
Proof.
  eexists. split; [reflexivity|].
  destruct (fromDataSet_hints
              (dataset_of [("x00280004", "MONOCHROME2"); ("x00281056", "NOT-A-FUNCTION")]
                 (uint16_tags 16 16 15 0) [("x00281051", of_Z 400)]
                 [("x7fe00010", sample_element None)] sample_byteArray)
              _ eq_refl) as (Hc & Hw & Hf & _).
  specialize (Hf "NOT-A-FUNCTION" eq_refl).
  reflexivity.
Defined.

(** ** The two resolvers *)

Lemma recognized_UIDs_dec (uid : string) :
  {In uid recognized_UIDs} + {~ In uid recognized_UIDs}.
Proof. apply in_dec, string_dec. Qed.

(** X21. The resolver of [common.ts] succeeds on exactly the ten UIDs of
    the table. *)
Theorem fromTransferSyntaxUID_Ok_iff (uid : string) :
  (exists ts : TransferSyntax.t, TransferSyntax_.fromTransferSyntaxUID uid = Ok ts)
  <-> In uid recognized_UIDs.
Proof.
  split.
  - intros [ts Hok].
    destruct (recognized_UIDs_dec uid) as [Hin | Hout]; [exact Hin|].
    rewrite (fromTransferSyntaxUID_unrecognized uid Hout) in Hok. discriminate Hok.
  - unfold recognized_UIDs. simpl.
    intros Hin.
    repeat (destruct Hin as [<- | Hin]; [eexists; reflexivity|]).
    contradiction.
Qed.

Lemma fromTransferSyntaxUID_Ok_iff_witness :
  exists ts : TransferSyntax.t,
    TransferSyntax_.fromTransferSyntaxUID "1.2.840.10008.1.2.4.57" = Ok ts.
Proof.
  apply (proj2 (fromTransferSyntaxUID_Ok_iff "1.2.840.10008.1.2.4.57")).
  unfold recognized_UIDs. simpl. auto 12.
Defined.

(** X22. On every string the two resolvers differ only in how they fail:
    where the one of [common.ts] returns a member, the one of
    [DicomImage.ts] returns the same member; where the former returns its
    error, the latter returns [UncompressedBE]. *)
Theorem resolvers_agree (uid : string) :
  match TransferSyntax_.fromTransferSyntaxUID uid with
  | Ok ts => DicomImage.TransferSyntax_.fromTransferSyntaxUID uid = ts
  | Err message =>
      message = "Unexpected transfer syntax"
      /\ DicomImage.TransferSyntax_.fromTransferSyntaxUID uid = TransferSyntax.UncompressedBE
  end.
Proof.
  destruct (recognized_UIDs_dec uid) as [Hin | Hout].
  - unfold recognized_UIDs in Hin. simpl in Hin.
    repeat (destruct Hin as [<- | Hin]; [reflexivity|]).
    contradiction.
  - rewrite (fromTransferSyntaxUID_unrecognized uid Hout).
    split; [reflexivity|].
    apply DicomImage_fromTransferSyntaxUID_unrecognized, Hout.
Qed.

(** X23. Every member of [TransferSyntax] is the image of some UID of the
    table, under either resolver. *)
Theorem every_member_has_a_UID (ts : TransferSyntax.t) :
  exists uid : string,
    In uid recognized_UIDs
    /\ TransferSyntax_.fromTransferSyntaxUID uid = Ok ts
    /\ DicomImage.TransferSyntax_.fromTransferSyntaxUID uid = ts.
Proof.
  destruct ts;
    [exists "1.2.840.10008.1.2.4.90" | exists "1.2.840.10008.1.2.5"
     | exists "1.2.840.10008.1.2.4.57" | exists "1.2.840.10008.1.2.4.50"
     | exists "1.2.840.10008.1.2.1" | exists "1.2.840.10008.1.2.2"];
    (split; [unfold recognized_UIDs; simpl; auto 12 | split; reflexivity]).
Qed.

(** X24. Of the six transfer syntaxes only [UncompressedBE] is big-endian,
    and only the two uncompressed ones have compression None; the
    classifier is injective. *)
Theorem classification_facts (ts : TransferSyntax.t) :
  (snd (TransferSyntax_.toCompressionAndEndianness ts) = Endianness.BigEndian
   <-> ts = TransferSyntax.UncompressedBE)
  /\ (fst (TransferSyntax_.toCompressionAndEndianness ts) = Compression.None
      <-> ts = TransferSyntax.UncompressedLE \/ ts = TransferSyntax.UncompressedBE)
  /\ (forall ts' : TransferSyntax.t,
        TransferSyntax_.toCompressionAndEndianness ts
        = TransferSyntax_.toCompressionAndEndianness ts' ->
        ts = ts').
Proof.
  split; [|split].
  - destruct ts; simpl; split; congruence.
  - destruct ts; simpl; split; intros H; try discriminate H; auto;
      destruct H as [H | H]; discriminate H.
  - intros ts'. destruct ts, ts'; simpl; congruence.
Qed.

Lemma classification_facts_witness :
  TransferSyntax_.fromTransferSyntaxUID "1.2.840.10008.1.2.2"
  = Ok TransferSyntax.UncompressedBE
  /\ snd (TransferSyntax_.toCompressionAndEndianness TransferSyntax.UncompressedBE)
     = Endianness.BigEndian.
Proof.
  split; [reflexivity|].
  apply (proj2 (proj1 (classification_facts TransferSyntax.UncompressedBE))).
  reflexivity.
Defined.

(** ** Pixel spacing: fields and numbers *)

Lemma split_length (c : ascii) (s : string) :
  List.length (split c s) = S (occurrences c s).
Proof.
  induction s as [|c' rest IH]; [reflexivity|].
  cbn [split occurrences]. destruct (Ascii.eqb c' c).
  - cbn [List.length]. rewrite IH. reflexivity.
  - destruct (split c rest) as [|field fields]; [discriminate IH|].
    cbn [List.length] in *. exact IH.
Qed.





(** X25. [fromString] succeeds exactly on the strings with one backslash;
    on every other string, the empty one included, it returns "Invalid
    value of Pixel Spacing".  What stands in the two fields plays no
    part. *)
Theorem fromString_Ok_iff (str : string) :
  ((exists spacing : PixelSpacing.t, PixelSpacing.fromString str = Ok spacing)
   <-> occurrences backslash str = 1%nat)
  /\ (PixelSpacing.fromString str = Err "Invalid value of Pixel Spacing"
      <-> occurrences backslash str <> 1%nat).
Proof.
  pose proof (split_length backslash str) as Hlen.
  destruct (Nat.eq_dec (occurrences backslash str) 1) as [Hone | Hother].
  - assert (Htwo : List.length (split backslash str) = 2%nat) by lia.
    rewrite (fromString_two_fields str Htwo).
    split; split; intros H; try exact Hone; try discriminate H; try contradiction.
    eexists. reflexivity.
  - assert (Hnot : List.length (split backslash str) <> 2%nat) by lia.
    rewrite (fromString_other_fields str Hnot).
    split; split; intros H; try exact Hother; try reflexivity; try contradiction.
    destruct H as [spacing H]. discriminate H.
Qed.

Lemma fromString_Ok_iff_witness :
  (exists spacing : PixelSpacing.t,
     PixelSpacing.fromString (String backslash EmptyString) = Ok spacing)
  /\ PixelSpacing.fromString EmptyString = Err "Invalid value of Pixel Spacing".
Proof.
  split.
  - apply (proj2 (proj1 (fromString_Ok_iff (String backslash EmptyString)))).
    reflexivity.
  - apply (proj2 (proj2 (fromString_Ok_iff EmptyString))).
    cbv. discriminate.
Defined.






(** ** The RGB helper *)

(** X28. [_rgbFrom] throws the runtime's RangeError when the byte length of
    the pixel-data buffer is not a multiple of 4.  On a buffer of
    little-endian 32-bit pixels it returns an rgb raster with the image's
    rows and columns whose elements, read on a little-endian platform, are
    those pixels, one per four bytes. *)
Theorem rgbFrom_outcome (d : DicomImage.t) :
  ((List.length (TypedArray.buffer (DicomImage.pixelData d)) mod 4 <> 0)%nat ->
   Image_._rgbFrom d = Throw RangeError)
  /\ (forall pixels : list Z,
        Forall (fun v => 0 <= v < 2 ^ 32) pixels ->
        TypedArray.buffer (DicomImage.pixelData d)
          = samples_buffer Endianness.LittleEndian 4 pixels ->
        exists view : TypedArray.t,
          Image_._rgbFrom d
            = Return (Image.rgb (DicomImage.rows d) (DicomImage.columns d) view)
          /\ TypedArray.kind view = Uint32
          /\ TypedArray.length view = List.length pixels
          /\ TypedArray.elements Endianness.LittleEndian view = pixels).
Proof.
  split.
  - intros Hfit. unfold Image_._rgbFrom.
    rewrite (of_buffer_misfit Uint32 _ Hfit). reflexivity.
  - intros pixels Hrange Hbuf. unfold Image_._rgbFrom. rewrite Hbuf.
    change 4%nat with (BYTES_PER_ELEMENT Uint32).
    rewrite of_buffer_samples. cbn [bind].
    eexists. split; [reflexivity|]. split; [reflexivity|]. split; [reflexivity|].
    apply elements_samples. exact Hrange.
Qed.

Lemma rgbFrom_outcome_witness :
  Image_._rgbFrom
    (image_of Compression.None PhotometricInterpratation.Rgb 3 8 8 7
       PixelRepresentation.Unsigned OB [Byte.x01; Byte.x02; Byte.x03])
  = Throw RangeError
  /\ exists view : TypedArray.t,
       Image_._rgbFrom
         (image_of Compression.None PhotometricInterpratation.Rgb 3 8 8 7
            PixelRepresentation.Unsigned OB [Byte.x01; Byte.x02; Byte.x03; Byte.x04])
       = Return (Image.rgb 1 2 view)
       /\ TypedArray.kind view = Uint32
       /\ TypedArray.length view = 1%nat
       /\ TypedArray.elements Endianness.LittleEndian view = [67305985].
Proof.
  split.
  - apply (proj1 (rgbFrom_outcome
             (image_of Compression.None PhotometricInterpratation.Rgb 3 8 8 7
                PixelRepresentation.Unsigned OB [Byte.x01; Byte.x02; Byte.x03]))).
    cbv. discriminate.
  - apply (proj2 (rgbFrom_outcome
             (image_of Compression.None PhotometricInterpratation.Rgb 3 8 8 7
                PixelRepresentation.Unsigned OB [Byte.x01; Byte.x02; Byte.x03; Byte.x04]))
             [67305985]).
    + repeat constructor; lia.
    + reflexivity.
Defined.
